(** * novatel_node: a shallow embedding of the ROS node's log handlers

    The node (src/novatel_node.cpp) registers one handler per decoded
    receiver log.  Each handler below is the translation of the C++ member
    function of the same name: the node object is passed explicitly, the
    messages handed to the ROS publishers are returned in a list, and the
    clock reading [ros::Time::now()] is an argument.

    Numbers.  C++ [double] is IEEE binary64 and is modelled by Rocq's
    primitive floats, whose operations are the binary64 ones (round to
    nearest even).  Integers (GPS week, milliseconds, enumeration codes,
    satellite numbers) are modelled in [Z]; the one place where the source
    narrows an integer ([uint8_t n = ephem.prn-1]) has its wrap-around
    written out. *)

From Stdlib Require Import ZArith Lia Bool Ascii String.
From Stdlib Require Import PrimFloat SpecFloat FloatOps.
From stdpp Require Import base option list.

Set Warnings "-inexact-float".

(** ** File-scope constants (lines 57-64) *)

Definition M_PI : float := 3.14159265358979323846%float.
Definition radians_to_degrees : float := (180 / M_PI)%float.
Definition degrees_to_radians : float := (M_PI / 180)%float.
Definition degrees_square_to_radians_square : float :=
  (degrees_to_radians * degrees_to_radians)%float.

(** velocity std dev in m/s *)
Definition sigma_v : float := 0.05%float.

(** [DBL_MAX] of <cfloat>: the largest finite binary64 number,
    (2 - 2^-52) * 2^1023. *)
Definition DBL_MAX : float := 0x1.fffffffffffffp+1023%float.

#[global] Instance float_inhabited : Inhabited float := populate 0%float.

(** The product [*] of two C++ [float] operands, widened to [double]:
    the IEEE binary32 product (24 bits of precision, round to nearest
    even), written with the Standard Library's specification of IEEE
    multiplication.  A binary32 number is a binary64 number, so that the
    operands and the result are kept as binary64 values.  This is the
    product of lines 145-147: the standard deviations of a position log
    are single-precision members of [UtmPosition], as they are in the
    receiver's log (the header that declares them belongs to the driver
    library and is not part of these sources). *)
Definition mul_single (a b : float) : float :=
  SF2Prim (SFmul 24 128 (Prim2SF a) (Prim2SF b)).

(** ** Enumerations of the receiver library and of the ROS messages

    The enumerators below are declared in headers that are not part of
    this repository's sources (novatel/novatel_enums.h of the driver
    library, sensor_msgs/NavSatStatus.h and sensor_msgs/NavSatFix.h of
    ROS).  Their numeric values are the ones of the receiver's binary
    protocol (the "position or velocity type" and "inertial solution
    status" tables of the OEM firmware reference) and of the ROS message
    definitions.  An enumeration object received from the wire can hold
    any integer, so a position type is a [Z]. *)

Module PositionType.
Local Open Scope Z_scope.
Definition NONE := 0.
Definition FIXEDPOS := 1.
Definition FIXEDHEIGHT := 2.
Definition Reserved := 3.
Definition FLOATCONV := 4.
Definition WIDELANE := 5.
Definition NARROWLANE := 6.
Definition DOPPLER_VELOCITY := 8.
Definition SINGLE := 16.
Definition PSRDIFF := 17.
Definition WAAS := 18.
Definition PROPOGATED := 19.
Definition OMNISTAR := 20.
Definition L1_FLOAT := 32.
Definition IONOFREE_FLOAT := 33.
Definition NARROW_FLOAT := 34.
Definition L1_INT := 48.
Definition WIDE_INT := 49.
Definition NARROW_INT := 50.
Definition RTK_DIRECT_INS := 51.
Definition INS := 52.
Definition INS_PSRSP := 53.
Definition INS_PSRDIFF := 54.
Definition INS_RTKFLOAT := 55.
Definition INS_RTKFIXED := 56.
Definition OMNISTAR_HP := 64.
Definition OMNISTAR_XP := 65.
Definition CDGPS := 66.

(** The closed enumeration: every code that has an enumerator. *)
Definition enumerators : list Z :=
  [NONE; FIXEDPOS; FIXEDHEIGHT; Reserved; FLOATCONV; WIDELANE; NARROWLANE;
   DOPPLER_VELOCITY; SINGLE; PSRDIFF; WAAS; PROPOGATED; OMNISTAR; L1_FLOAT;
   IONOFREE_FLOAT; NARROW_FLOAT; L1_INT; WIDE_INT; NARROW_INT;
   RTK_DIRECT_INS; INS; INS_PSRSP; INS_PSRDIFF; INS_RTKFLOAT; INS_RTKFIXED;
   OMNISTAR_HP; OMNISTAR_XP; CDGPS].

Definition recognized (code : Z) : bool :=
  existsb (Z.eqb code) enumerators.
End PositionType.

Module InsStatus.
Local Open Scope Z_scope.
Definition INS_INACTIVE := 0.
Definition INS_ALIGNING := 1.
Definition INS_SOLUTION_NOT_GOOD := 2.
Definition INS_SOLUTION_GOOD := 3.
End InsStatus.

Module NavSatStatus.
Local Open Scope Z_scope.
Definition STATUS_NO_FIX := -1.
Definition STATUS_FIX := 0.
Definition STATUS_SBAS_FIX := 1.
Definition STATUS_GBAS_FIX := 2.
Definition SERVICE_GPS := 1.
Definition SERVICE_GLONASS := 2.

Record t := mk { status : Z; service : Z }.
Definition init : t := mk 0 0.
End NavSatStatus.

(** ** Receiver log records (novatel/novatel_structures.h)

    The header that declares these structures belongs to the driver
    library and is not part of these sources.  Only the members that the
    node reads are kept.  A member that holds a measurement is a
    floating-point number, kept here as a binary64 value (a
    single-precision member widens to it exactly); the others are
    integers. *)

Module Oem4BinaryHeader.
(** Modelled from the spec: the declaration of the log header is missing;
    its two epoch members are the integers of the specification's
    TimeEpoch, "{week: integer, millisecond_of_week: integer}". *)
Record t := mk { gps_week : Z; gps_millisecs : Z }.
End Oem4BinaryHeader.

Module UtmPosition.
Record t := mk {
  header : Oem4BinaryHeader.t;
  position_type : Z;
  northing : float;
  easting : float;
  height : float;
  northing_standard_deviation : float;
  easting_standard_deviation : float;
  height_standard_deviation : float;
  signals_used_mask : Z
}.
End UtmPosition.

Module Velocity.
Record t := mk {
  header : Oem4BinaryHeader.t;
  position_type : Z;
  horizontal_speed : float;
  track_over_ground : float;
  vertical_speed : float
}.
End Velocity.

Module InsPositionVelocityAttitudeShort.
(** Modelled from the spec: the declaration of the structure is missing;
    its epoch members are the integers of the specification's TimeEpoch,
    the solution-quality status is a code of [InsStatus]. *)
Record t := mk {
  gps_week : Z;
  gps_millisecs : Z;
  latitude : float;
  longitude : float;
  height : float;
  north_velocity : float;
  east_velocity : float;
  up_velocity : float;
  roll : float;
  pitch : float;
  azimuth : float;
  status : Z
}.
End InsPositionVelocityAttitudeShort.

Module InsCovarianceShort.
(** Modelled from the spec: the declaration of the structure is missing;
    its epoch members are the integers of the specification's TimeEpoch,
    and each of the three covariance members is a 3x3 block, a C array of
    nine doubles in row-major order.  Reading element [k] of a block is
    [block !!! k]. *)
Record t := mk {
  gps_week : Z;
  gps_millisecs : Z;
  position_covariance : list float;
  attitude_covariance : list float;
  velocity_covariance : list float
}.
End InsCovarianceShort.

Module GpsEphemeris.
Record t := mk {
  prn : Z;
  health : Z;
  semi_major_axis : float;
  anomoly_reference_time : float;
  eccentricity : float;
  omega : float;
  latitude_cosine : float;
  latitude_sine : float;
  orbit_radius_cosine : float;
  orbit_radius_sine : float;
  inclination_cosine : float;
  inclination_sine : float;
  inclination_angle : float;
  right_ascension : float;
  mean_motion_difference : float;
  inclination_angle_rate : float;
  right_ascension_rate : float;
  time_of_week : float;
  time_of_ephemeris : float;
  sv_clock_correction : float;
  group_delay_difference : float;
  clock_aligning_param_0 : float;
  clock_aligning_param_1 : float;
  clock_aligning_param_2 : float
}.
End GpsEphemeris.

Module RangeData.
Record t := mk {
  satellite_prn : Z;
  pseudorange : float;
  pseudorange_standard_deviation : float;
  accumulated_doppler : float;
  accumulated_doppler_std_deviation : float;
  doppler : float;
  carrier_to_noise : float
}.
End RangeData.

Module RangeMeasurements.
Record t := mk { range_data : list RangeData.t }.
End RangeMeasurements.

(** ** ROS messages

    A default-constructed ROS message has every number 0, every string
    empty and every fixed-size array filled with 0. *)

Definition Time := Z.

Module Vector3.
Record t := mk { x : float; y : float; z : float }.
Definition init : t := mk 0 0 0.
End Vector3.

Module Quaternion.
Record t := mk { x : float; y : float; z : float; w : float }.
Definition init : t := mk 0 0 0 0.
End Quaternion.

Module NavSatFix.
Local Open Scope Z_scope.
Definition COVARIANCE_TYPE_UNKNOWN := 0.
Definition COVARIANCE_TYPE_APPROXIMATED := 1.
Definition COVARIANCE_TYPE_DIAGONAL_KNOWN := 2.
Definition COVARIANCE_TYPE_KNOWN := 3.

Record t := mk {
  stamp : Time;                      (* header.stamp *)
  frame_id : string;                 (* header.frame_id *)
  status : NavSatStatus.t;
  latitude : float;
  longitude : float;
  altitude : float;
  position_covariance : list float;  (* float64[9] *)
  position_covariance_type : Z
}.
Definition init : t :=
  mk 0 EmptyString NavSatStatus.init 0%float 0%float 0%float
     (replicate 9 0%float) 0.
End NavSatFix.

(** nav_msgs/Odometry, with the nesting of the message spelled in the
    member names: [position] is [pose.pose.position], [pose_covariance] is
    [pose.covariance] (float64[36], row major), [twist_linear] is
    [twist.twist.linear], [twist_covariance] is [twist.covariance]. *)
Module Odometry.
Record t := mk {
  stamp : Time;
  frame_id : string;
  position : Vector3.t;
  orientation : Quaternion.t;
  pose_covariance : list float;
  twist_linear : Vector3.t;
  twist_angular : Vector3.t;
  twist_covariance : list float
}.
Definition init : t :=
  mk 0%Z EmptyString Vector3.init Quaternion.init (replicate 36 0%float)
     Vector3.init Vector3.init (replicate 36 0%float).

Definition set_header (s : Time) (f : string) (o : t) : t :=
  mk s f (position o) (orientation o) (pose_covariance o)
     (twist_linear o) (twist_angular o) (twist_covariance o).
Definition set_position (p : Vector3.t) (o : t) : t :=
  mk (stamp o) (frame_id o) p (orientation o) (pose_covariance o)
     (twist_linear o) (twist_angular o) (twist_covariance o).
Definition set_orientation (q : Quaternion.t) (o : t) : t :=
  mk (stamp o) (frame_id o) (position o) q (pose_covariance o)
     (twist_linear o) (twist_angular o) (twist_covariance o).
(** [o.pose.covariance[k] = v], for a literal [k] below 36 *)
Definition set_pose_covariance (k : nat) (v : float) (o : t) : t :=
  mk (stamp o) (frame_id o) (position o) (orientation o)
     (<[k := v]> (pose_covariance o))
     (twist_linear o) (twist_angular o) (twist_covariance o).
Definition set_twist_linear (v : Vector3.t) (o : t) : t :=
  mk (stamp o) (frame_id o) (position o) (orientation o) (pose_covariance o)
     v (twist_angular o) (twist_covariance o).
(** [o.twist.covariance[k] = v], for a literal [k] below 36 *)
Definition set_twist_covariance (k : nat) (v : float) (o : t) : t :=
  mk (stamp o) (frame_id o) (position o) (orientation o) (pose_covariance o)
     (twist_linear o) (twist_angular o)
     (<[k := v]> (twist_covariance o)).
End Odometry.

(** gps_msgs/Ephemeris: a structure of arrays, one array per orbital
    parameter, indexed by satellite number minus one.  The message
    definition is not part of these sources; the capacity of the table is
    the common length of the arrays ([wf] below). *)
Module Ephemeris.
Record t := mk {
  stamp : Time;
  gps_time : float;
  health : list Z;
  semimajor_axis : list float;
  mean_anomaly : list float;
  eccentricity : list float;
  perigee_arg : list float;
  cos_latitude : list float;
  sin_latitude : list float;
  cos_orbit_radius : list float;
  sin_orbit_radius : list float;
  cos_inclination : list float;
  sin_inclination : list float;
  inclination_angle : list float;
  right_ascension : list float;
  mean_motion_diff : list float;
  inclination_rate : list float;
  ascension_rate : list float;
  time_of_week : list float;
  reference_time : list float;
  clock_correction : list float;
  group_delay : list float;
  clock_aging_1 : list float;
  clock_aging_2 : list float;
  clock_aging_3 : list float
}.

(** The default-constructed table with [N] rows. *)
Definition init (N : nat) : t :=
  let z := replicate N 0%float in
  mk 0%Z 0%float (replicate N 0%Z)
     z z z z z z z z z z z z z z z z z z z z z z.

(** One row of the table: the entries of the 23 arrays at index [j]. *)
Record row := mk_row {
  r_health : option Z;
  r_semimajor_axis : option float;
  r_mean_anomaly : option float;
  r_eccentricity : option float;
  r_perigee_arg : option float;
  r_cos_latitude : option float;
  r_sin_latitude : option float;
  r_cos_orbit_radius : option float;
  r_sin_orbit_radius : option float;
  r_cos_inclination : option float;
  r_sin_inclination : option float;
  r_inclination_angle : option float;
  r_right_ascension : option float;
  r_mean_motion_diff : option float;
  r_inclination_rate : option float;
  r_ascension_rate : option float;
  r_time_of_week : option float;
  r_reference_time : option float;
  r_clock_correction : option float;
  r_group_delay : option float;
  r_clock_aging_1 : option float;
  r_clock_aging_2 : option float;
  r_clock_aging_3 : option float
}.

Definition row_at (e : t) (j : nat) : row :=
  mk_row (health e !! j) (semimajor_axis e !! j) (mean_anomaly e !! j)
    (eccentricity e !! j) (perigee_arg e !! j) (cos_latitude e !! j)
    (sin_latitude e !! j) (cos_orbit_radius e !! j)
    (sin_orbit_radius e !! j) (cos_inclination e !! j)
    (sin_inclination e !! j) (inclination_angle e !! j)
    (right_ascension e !! j) (mean_motion_diff e !! j)
    (inclination_rate e !! j) (ascension_rate e !! j)
    (time_of_week e !! j) (reference_time e !! j)
    (clock_correction e !! j) (group_delay e !! j)
    (clock_aging_1 e !! j) (clock_aging_2 e !! j) (clock_aging_3 e !! j).

(** The row that an ephemeris log describes. *)
Definition row_of (g : GpsEphemeris.t) : row :=
  mk_row (Some (GpsEphemeris.health g))
    (Some (GpsEphemeris.semi_major_axis g))
    (Some (GpsEphemeris.anomoly_reference_time g))
    (Some (GpsEphemeris.eccentricity g))
    (Some (GpsEphemeris.omega g))
    (Some (GpsEphemeris.latitude_cosine g))
    (Some (GpsEphemeris.latitude_sine g))
    (Some (GpsEphemeris.orbit_radius_cosine g))
    (Some (GpsEphemeris.orbit_radius_sine g))
    (Some (GpsEphemeris.inclination_cosine g))
    (Some (GpsEphemeris.inclination_sine g))
    (Some (GpsEphemeris.inclination_angle g))
    (Some (GpsEphemeris.right_ascension g))
    (Some (GpsEphemeris.mean_motion_difference g))
    (Some (GpsEphemeris.inclination_angle_rate g))
    (Some (GpsEphemeris.right_ascension_rate g))
    (Some (GpsEphemeris.time_of_week g))
    (Some (GpsEphemeris.time_of_ephemeris g))
    (Some (GpsEphemeris.sv_clock_correction g))
    (Some (GpsEphemeris.group_delay_difference g))
    (Some (GpsEphemeris.clock_aligning_param_0 g))
    (Some (GpsEphemeris.clock_aligning_param_1 g))
    (Some (GpsEphemeris.clock_aligning_param_2 g)).

(** A table of capacity [N]: every array has [N] elements. *)
Definition wf (N : nat) (e : t) : Prop :=
  length (health e) = N /\ length (semimajor_axis e) = N /\
  length (mean_anomaly e) = N /\ length (eccentricity e) = N /\
  length (perigee_arg e) = N /\ length (cos_latitude e) = N /\
  length (sin_latitude e) = N /\ length (cos_orbit_radius e) = N /\
  length (sin_orbit_radius e) = N /\ length (cos_inclination e) = N /\
  length (sin_inclination e) = N /\ length (inclination_angle e) = N /\
  length (right_ascension e) = N /\ length (mean_motion_diff e) = N /\
  length (inclination_rate e) = N /\ length (ascension_rate e) = N /\
  length (time_of_week e) = N /\ length (reference_time e) = N /\
  length (clock_correction e) = N /\ length (group_delay e) = N /\
  length (clock_aging_1 e) = N /\ length (clock_aging_2 e) = N /\
  length (clock_aging_3 e) = N.
End Ephemeris.

(** gps_msgs/DualBandRange: two bands, each a structure of arrays indexed
    by channel.  The message definition is not part of these sources; the
    capacity of its arrays is the argument of [init]. *)
Module Carrier.
Record t := mk {
  doppler : list float;
  noise : list float;
  phase : list float;
  phase_std : list float
}.
Definition init (cap : nat) : t :=
  let z := replicate cap 0%float in mk z z z z.
End Carrier.

Module Range.
Record t := mk {
  prn : list Z;
  psr : list float;
  psr_std : list float;
  carrier : Carrier.t
}.
Definition init (cap : nat) : t :=
  mk (replicate cap 0%Z) (replicate cap 0%float) (replicate cap 0%float)
     (Carrier.init cap).
End Range.

Module DualBandRange.
Record t := mk {
  stamp : Time;
  gps_time : float;
  L1 : Range.t;
  L2 : Range.t
}.
Definition init (cap : nat) : t :=
  mk 0%Z 0%float (Range.init cap) (Range.init cap).
End DualBandRange.

(** ** The node

    The three data members that the handlers read and write.  They are
    not initialised by the constructor, so the theorems quantify over an
    arbitrary node. *)
Record NovatelNode := mkNode {
  cur_velocity_ : Velocity.t;
  cur_ins_cov_ : InsCovarianceShort.t;
  cur_ephem_ : Ephemeris.t
}.

(** A message handed to one of the four publishers. *)
Inductive Published :=
| nav_sat_fix_publisher_ (m : NavSatFix.t)
| odom_publisher_ (m : Odometry.t)
| ephemeris_publisher_ (m : Ephemeris.t)
| dual_band_range_publisher_ (m : DualBandRange.t).

(** An element store [a[n] = v] into an array.  A store past the end of
    the array is undefined in C++: it has no result here. *)
Definition store {A} (n : nat) (v : A) (a : list A) : option (list A) :=
  if decide (n < length a)%nat then Some (<[n := v]> a) else None.

(** [for (int n = from; n != from + count; ++n) body], the body threading
    a state and possibly undefined. *)
Fixpoint for_loop {S} (body : nat -> S -> option S) (from count : nat) (s : S)
  : option S :=
  match count with
  | O => Some s
  | Datatypes.S count' => s' ← body from s; for_loop body (Datatypes.S from) count' s'
  end.

(** ** BestUtmHandler, the satellite-fix half (lines 95-133)

    This half uses nothing but the position record and the clock. *)

(** Lines 99-118: the if/else-if chain that sets [sat_fix.status.status].
    The test of [WIDE_INT] occurs twice in the source. *)
Definition BestUtm_status (position_type : Z) : Z :=
  let type_is c := (position_type =? c)%Z in
  if type_is PositionType.NONE then NavSatStatus.STATUS_NO_FIX
  else if type_is PositionType.WAAS
          || type_is PositionType.OMNISTAR
          || type_is PositionType.OMNISTAR_HP
          || type_is PositionType.OMNISTAR_XP
          || type_is PositionType.CDGPS
  then NavSatStatus.STATUS_SBAS_FIX
  else if type_is PositionType.PSRDIFF
          || type_is PositionType.NARROW_FLOAT
          || type_is PositionType.WIDE_INT
          || type_is PositionType.WIDE_INT
          || type_is PositionType.NARROW_INT
          || type_is PositionType.RTK_DIRECT_INS
          || type_is PositionType.INS_PSRDIFF
          || type_is PositionType.INS_RTKFLOAT
          || type_is PositionType.INS_RTKFIXED
  then NavSatStatus.STATUS_GBAS_FIX
  else NavSatStatus.STATUS_FIX.

(** Lines 120-123: [if (pos.signals_used_mask & 0x30)]. *)
Definition BestUtm_service (signals_used_mask : Z) : Z :=
  if negb (Z.land signals_used_mask 0x30 =? 0)%Z
  then NavSatStatus.SERVICE_GLONASS
  else NavSatStatus.SERVICE_GPS.

Definition BestUtm_sat_fix (pos : UtmPosition.t) (now : Time) : NavSatFix.t :=
  NavSatFix.mk now "/odom"
    (NavSatStatus.mk (BestUtm_status (UtmPosition.position_type pos))
                     (BestUtm_service (UtmPosition.signals_used_mask pos)))
    0%float 0%float 0%float (replicate 9 0%float)
    NavSatFix.COVARIANCE_TYPE_DIAGONAL_KNOWN.

(** Lines 153-154: the test that guards the use of the cached velocity. *)
Definition BestUtm_velocity_matches (vel : Velocity.t) (pos : UtmPosition.t)
  : bool :=
  (Oem4BinaryHeader.gps_week (Velocity.header vel)
     =? Oem4BinaryHeader.gps_week (UtmPosition.header pos))%Z
  && (Oem4BinaryHeader.gps_millisecs (Velocity.header vel)
        =? Oem4BinaryHeader.gps_millisecs (UtmPosition.header pos))%Z.

(** Lines 233-234: the test that guards the use of the cached covariance. *)
Definition InsPva_covariance_matches (cov : InsCovarianceShort.t)
    (ins_pva : InsPositionVelocityAttitudeShort.t) : bool :=
  (InsCovarianceShort.gps_week cov
     =? InsPositionVelocityAttitudeShort.gps_week ins_pva)%Z
  && (InsCovarianceShort.gps_millisecs cov
        =? InsPositionVelocityAttitudeShort.gps_millisecs ins_pva)%Z.

(** ** The two caching handlers (lines 184-188 and 277-279) *)

Definition BestVelocityHandler (self : NovatelNode) (vel : Velocity.t)
    (timestamp : float) : NovatelNode * list Published :=
  (mkNode vel (cur_ins_cov_ self) (cur_ephem_ self), []).

Definition InsCovHandler (self : NovatelNode) (cov : InsCovarianceShort.t)
    (timestamp : float) : NovatelNode * list Published :=
  (mkNode (cur_velocity_ self) cov (cur_ephem_ self), []).

(** ** EphemerisHandler (lines 285-317)

    [uint8_t n = ephem.prn-1]: the difference is reduced modulo 256.  The
    23 element stores follow; the table is then published whole. *)
Definition Ephemeris_index (prn : Z) : nat := Z.to_nat ((prn - 1) mod 256).

Definition EphemerisHandler (self : NovatelNode) (ephem : GpsEphemeris.t)
    (timestamp : float) (now : Time) : option (NovatelNode * list Published) :=
  let e := cur_ephem_ self in
  let n := Ephemeris_index (GpsEphemeris.prn ephem) in
  health ← store n (GpsEphemeris.health ephem) (Ephemeris.health e);
  semimajor_axis ←
    store n (GpsEphemeris.semi_major_axis ephem) (Ephemeris.semimajor_axis e);
  mean_anomaly ←
    store n (GpsEphemeris.anomoly_reference_time ephem) (Ephemeris.mean_anomaly e);
  eccentricity ←
    store n (GpsEphemeris.eccentricity ephem) (Ephemeris.eccentricity e);
  perigee_arg ← store n (GpsEphemeris.omega ephem) (Ephemeris.perigee_arg e);
  cos_latitude ←
    store n (GpsEphemeris.latitude_cosine ephem) (Ephemeris.cos_latitude e);
  sin_latitude ←
    store n (GpsEphemeris.latitude_sine ephem) (Ephemeris.sin_latitude e);
  cos_orbit_radius ←
    store n (GpsEphemeris.orbit_radius_cosine ephem) (Ephemeris.cos_orbit_radius e);
  sin_orbit_radius ←
    store n (GpsEphemeris.orbit_radius_sine ephem) (Ephemeris.sin_orbit_radius e);
  cos_inclination ←
    store n (GpsEphemeris.inclination_cosine ephem) (Ephemeris.cos_inclination e);
  sin_inclination ←
    store n (GpsEphemeris.inclination_sine ephem) (Ephemeris.sin_inclination e);
  inclination_angle ←
    store n (GpsEphemeris.inclination_angle ephem) (Ephemeris.inclination_angle e);
  right_ascension ←
    store n (GpsEphemeris.right_ascension ephem) (Ephemeris.right_ascension e);
  mean_motion_diff ←
    store n (GpsEphemeris.mean_motion_difference ephem) (Ephemeris.mean_motion_diff e);
  inclination_rate ←
    store n (GpsEphemeris.inclination_angle_rate ephem) (Ephemeris.inclination_rate e);
  ascension_rate ←
    store n (GpsEphemeris.right_ascension_rate ephem) (Ephemeris.ascension_rate e);
  time_of_week ←
    store n (GpsEphemeris.time_of_week ephem) (Ephemeris.time_of_week e);
  reference_time ←
    store n (GpsEphemeris.time_of_ephemeris ephem) (Ephemeris.reference_time e);
  clock_correction ←
    store n (GpsEphemeris.sv_clock_correction ephem) (Ephemeris.clock_correction e);
  group_delay ←
    store n (GpsEphemeris.group_delay_difference ephem) (Ephemeris.group_delay e);
  clock_aging_1 ←
    store n (GpsEphemeris.clock_aligning_param_0 ephem) (Ephemeris.clock_aging_1 e);
  clock_aging_2 ←
    store n (GpsEphemeris.clock_aligning_param_1 ephem) (Ephemeris.clock_aging_2 e);
  clock_aging_3 ←
    store n (GpsEphemeris.clock_aligning_param_2 ephem) (Ephemeris.clock_aging_3 e);
  let e' :=
    Ephemeris.mk now timestamp health semimajor_axis mean_anomaly eccentricity
      perigee_arg cos_latitude sin_latitude cos_orbit_radius sin_orbit_radius
      cos_inclination sin_inclination inclination_angle right_ascension
      mean_motion_diff inclination_rate ascension_rate time_of_week
      reference_time clock_correction group_delay clock_aging_1 clock_aging_2
      clock_aging_3 in
  Some (mkNode (cur_velocity_ self) (cur_ins_cov_ self) e',
        [ephemeris_publisher_ e']).

(** ** RangeHandler (lines 319-338)

    [MAX_CHAN] is a macro of the driver library and [capacity] the size of
    the arrays of a default-constructed gps_msgs/DualBandRange; neither
    declaration is part of these sources, so both are parameters.
    [range.range_data] is a C array of [MAX_CHAN] records. *)
Section Range_handler.

Context (MAX_CHAN : nat) (capacity : nat).

(** Lines 328-334: one turn of the loop, on the L1 band. *)
Definition RangeHandler_body (range : RangeMeasurements.t) (n : nat)
    (L1 : Range.t) : option Range.t :=
  d ← RangeMeasurements.range_data range !! n;
  prn ← store n (RangeData.satellite_prn d) (Range.prn L1);
  psr ← store n (RangeData.pseudorange d) (Range.psr L1);
  psr_std ←
    store n (RangeData.pseudorange_standard_deviation d) (Range.psr_std L1);
  doppler ←
    store n (RangeData.doppler d) (Carrier.doppler (Range.carrier L1));
  noise ←
    store n (RangeData.carrier_to_noise d) (Carrier.noise (Range.carrier L1));
  phase ←
    store n (- RangeData.accumulated_doppler d)%float
      (Carrier.phase (Range.carrier L1));
  phase_std ←
    store n (- RangeData.accumulated_doppler_std_deviation d)%float
      (Carrier.phase_std (Range.carrier L1));
  Some (Range.mk prn psr psr_std (Carrier.mk doppler noise phase phase_std)).

Definition RangeHandler (self : NovatelNode) (range : RangeMeasurements.t)
    (timestamp : float) (now : Time) : option (NovatelNode * list Published) :=
  let cur_range_ := DualBandRange.init capacity in
  L1 ← for_loop (RangeHandler_body range) 0 MAX_CHAN
          (DualBandRange.L1 cur_range_);
  let cur_range_ :=
    DualBandRange.mk now timestamp L1 (DualBandRange.L2 cur_range_) in
  Some (self, [dual_band_range_publisher_ cur_range_]).

End Range_handler.


(** ** The specification's own words, for comparison with the code *)

Module Spec.

(** The four quality tiers of the classifier, and the errors it and the
    ephemeris table are specified to fail with. *)
Inductive Tier := NoFix | SbasFix | GbasFix | Fix.

Inductive Error := UnrecognizedStatusCode | SatelliteIdOutOfRange.

(** The tier that a status of sensor_msgs/NavSatStatus stands for. *)
Definition status_of (t : Tier) : Z :=
  match t with
  | NoFix => NavSatStatus.STATUS_NO_FIX
  | SbasFix => NavSatStatus.STATUS_SBAS_FIX
  | GbasFix => NavSatStatus.STATUS_GBAS_FIX
  | Fix => NavSatStatus.STATUS_FIX
  end.

(** The fixed set of satellite-based-augmentation codes. *)
Definition sbas_codes : list Z :=
  [PositionType.WAAS; PositionType.OMNISTAR; PositionType.OMNISTAR_HP;
   PositionType.OMNISTAR_XP; PositionType.CDGPS].

(** The fixed set of ground/RTK/INS-aided differential codes. *)
Definition gbas_codes : list Z :=
  [PositionType.PSRDIFF; PositionType.NARROW_FLOAT; PositionType.WIDE_INT;
   PositionType.NARROW_INT; PositionType.RTK_DIRECT_INS;
   PositionType.INS_PSRDIFF; PositionType.INS_RTKFLOAT;
   PositionType.INS_RTKFIXED].

Definition mem (code : Z) (codes : list Z) : bool := existsb (Z.eqb code) codes.

(** "classify(positionTypeCode)": a total mapping on the recognized codes,
    failing with [UnrecognizedStatusCode] on every other code. *)
Definition classify (code : Z) : Error + Tier :=
  if negb (PositionType.recognized code) then inl UnrecognizedStatusCode
  else if (code =? PositionType.NONE)%Z then inr NoFix
  else if mem code sbas_codes then inr SbasFix
  else if mem code gbas_codes then inr GbasFix
  else inr Fix.

(** "update(satelliteId, fields) fails with SatelliteIdOutOfRange if
    satelliteId is outside [1, N]"; otherwise the row to mutate. *)
Definition update_row (N : nat) (satelliteId : Z) : Error + nat :=
  if (1 <=? satelliteId)%Z && (satelliteId <=? Z.of_nat N)%Z
  then inr (Z.to_nat (satelliteId - 1))
  else inl SatelliteIdOutOfRange.

End Spec.

(** One channel of the published L1 band, and the channel that a raw
    range record is to become. *)
Record Channel := mkChannel {
  ch_prn : option Z;
  ch_psr : option float;
  ch_psr_std : option float;
  ch_doppler : option float;
  ch_noise : option float;
  ch_phase : option float;
  ch_phase_std : option float
}.

Definition channel_at (L : Range.t) (n : nat) : Channel :=
  mkChannel (Range.prn L !! n) (Range.psr L !! n) (Range.psr_std L !! n)
    (Carrier.doppler (Range.carrier L) !! n)
    (Carrier.noise (Range.carrier L) !! n)
    (Carrier.phase (Range.carrier L) !! n)
    (Carrier.phase_std (Range.carrier L) !! n).

Definition channel_of (d : RangeData.t) : Channel :=
  mkChannel (Some (RangeData.satellite_prn d))
    (Some (RangeData.pseudorange d))
    (Some (RangeData.pseudorange_standard_deviation d))
    (Some (RangeData.doppler d))
    (Some (RangeData.carrier_to_noise d))
    (Some (- RangeData.accumulated_doppler d)%float)
    (Some (- RangeData.accumulated_doppler_std_deviation d)%float).

(** Every array of the band has [cap] elements. *)
Definition Range_wf (cap : nat) (L : Range.t) : Prop :=
  length (Range.prn L) = cap /\ length (Range.psr L) = cap /\
  length (Range.psr_std L) = cap /\
  length (Carrier.doppler (Range.carrier L)) = cap /\
  length (Carrier.noise (Range.carrier L)) = cap /\
  length (Carrier.phase (Range.carrier L)) = cap /\
  length (Carrier.phase_std (Range.carrier L)) = cap.

(** The odometry message among the messages a handler published. *)
Definition published_odom (out : NovatelNode * list Published)
  : option Odometry.t :=
  match out.2 with
  | [nav_sat_fix_publisher_ _; odom_publisher_ o] => Some o
  | _ => None
  end.

(** ** Sample records, on which the handlers are run *)

Module Sample.

Definition velocity (week ms position_type : Z) (horizontal_speed : float)
  : Velocity.t :=
  Velocity.mk (Oem4BinaryHeader.mk week ms) position_type
    horizontal_speed 90%float 0.5%float.

Definition position_of_type (position_type week ms : Z) : UtmPosition.t :=
  UtmPosition.mk (Oem4BinaryHeader.mk week ms) position_type
    3606832.5%float 640460.25%float 200%float
    0.2%float 0.1%float 0.3%float 0%Z.

Definition position : Z -> Z -> UtmPosition.t :=
  position_of_type PositionType.SINGLE.

Definition ins_pva (week ms : Z) : InsPositionVelocityAttitudeShort.t :=
  InsPositionVelocityAttitudeShort.mk week ms 32.5%float (-85.5)%float
    200%float 1%float 2%float 0%float 0%float 0%float 45%float
    InsStatus.INS_SOLUTION_GOOD.

(** A covariance record whose attitude block is the identity, in
    degrees squared. *)
Definition ins_cov (week ms : Z) : InsCovarianceShort.t :=
  InsCovarianceShort.mk week ms
    [4; 0; 0; 0; 4; 0; 0; 0; 9]%float
    [1; 0; 0; 0; 1; 0; 0; 0; 1]%float
    [0.25; 0; 0; 0; 0.25; 0; 0; 0; 0.5]%float.

Definition node (vel : Velocity.t) (cov : InsCovarianceShort.t) : NovatelNode :=
  mkNode vel cov (Ephemeris.init 32).

Definition ephemeris (prn : Z) : GpsEphemeris.t :=
  GpsEphemeris.mk prn 1%Z 26560000%float 0.5%float 0.01%float 1%float
    2%float 3%float 4%float 5%float 6%float 7%float 0.96%float 8%float
    9%float 10%float 11%float 302400%float 309600%float 12%float 13%float
    14%float 15%float 16%float.

Definition range_data (k : Z) : RangeData.t :=
  RangeData.mk k 21000000%float 0.5%float 1234.5%float 0.25%float
    (-500)%float 45%float.

Definition range : RangeMeasurements.t :=
  RangeMeasurements.mk [range_data 7; range_data 12; range_data 30].

(** Stand-ins for the functions of other libraries, to run the odometry
    handlers on the samples; no theorem depends on what they compute. *)
Definition trig (x : float) : float := x.
Definition quaternion_from_yaw (yaw : float) : Quaternion.t :=
  Quaternion.mk 0 0 yaw 1.
Definition quaternion_from_rpy (r p y : float) : Quaternion.t :=
  Quaternion.mk r p y 1.
Definition projection (lat lon : float) : float * float * Z * bool :=
  (lat, lon, 16%Z, true).

End Sample.

(** ** The two handlers without a body (lines 273-275 and 281-283) *)

Definition RawImuHandler (self : NovatelNode) (timestamp : float)
  : NovatelNode * list Published := (self, []).

Definition HardwareStatusHandler (self : NovatelNode) (timestamp : float)
  : NovatelNode * list Published := (self, []).

(** ** Start-up: parameters and the configuration of the receiver

    [run] (lines 340-428) sends commands to the receiver through the
    driver object [gps_] and reports a malformed directive with
    ROS_ERROR.  The commands and the report are collected in a list; the
    ROS_INFO lines, which echo the parameters, are left out. *)

(** The tokens that iterating a [boost::tokenizer] with
    [boost::char_separator<char> sep(",")] yields: the separator is
    dropped, and so are empty tokens (the separator's default policy), so
    that the tokens are the maximal runs of characters other than the
    separator.  [fields] cuts the string at every separator; [tokenize]
    drops the empty fields. *)
Fixpoint fields (sep : ascii) (s : string) : list string :=
  match s with
  | EmptyString => [EmptyString]
  | String c s' =>
      if Ascii.eqb c sep then EmptyString :: fields sep s'
      else match fields sep s' with
           | t :: ts => String c t :: ts
           | [] => [String c EmptyString]
           end
  end.

Definition nonempty (t : string) : bool :=
  match t with EmptyString => false | String _ _ => true end.

Definition tokenize (sep : ascii) (s : string) : list string :=
  List.filter nonempty (fields sep s).

(** The tokens written one after the other with the separator between
    them. *)
Fixpoint join (sep : ascii) (ts : list string) : string :=
  match ts with
  | [] => EmptyString
  | [t] => t
  | t :: ts' => String.append t (String sep (join sep ts'))
  end.

(** Whether a character occurs in a string. *)
Fixpoint occurs (c : ascii) (s : string) : bool :=
  match s with
  | EmptyString => false
  | String c' s' => Ascii.eqb c' c || occurs c s'
  end.

(** A string of [n] separators ",". *)
Fixpoint commas (n : nat) : string :=
  match n with
  | O => EmptyString
  | S n' => String ","%char (commas n')
  end.

(** [atoi] of <cstdlib>: white space is skipped, an optional sign is
    read, then decimal digits up to the first character that is not one.
    The C standard leaves the result undefined when the number does not
    fit an [int] (32 bits here): there is no result then. *)
Definition isspace (c : ascii) : bool :=
  let n := nat_of_ascii c in
  Nat.eqb n 32 || (Nat.leb 9 n && Nat.leb n 13).

Definition digit_of (c : ascii) : option Z :=
  let n := nat_of_ascii c in
  if Nat.leb 48 n && Nat.leb n 57 then Some (Z.of_nat n - 48)%Z else None.

(** Whether every character of a string is a decimal digit. *)
Fixpoint all_digits (s : string) : bool :=
  match s with
  | EmptyString => true
  | String c s' =>
      match digit_of c with
      | Some _ => all_digits s'
      | None => false
      end
  end.

Fixpoint skip_spaces (s : string) : string :=
  match s with
  | String c s' => if isspace c then skip_spaces s' else s
  | EmptyString => EmptyString
  end.

Fixpoint digits_value (acc : Z) (s : string) : Z :=
  match s with
  | String c s' =>
      match digit_of c with
      | Some d => digits_value (10 * acc + d)%Z s'
      | None => acc
      end
  | EmptyString => acc
  end.

Definition INT_MAX : Z := 2147483647.
Definition INT_MIN : Z := -2147483648.

Definition atoi (s : string) : option Z :=
  let s := skip_spaces s in
  let '(negative, s) :=
    match s with
    | String "-"%char s' => (true, s')
    | String "+"%char s' => (false, s')
    | _ => (false, s)
    end in
  let v := digits_value 0 s in
  let r := (if negative then - v else v)%Z in
  if (INT_MIN <=? r)%Z && (r <=? INT_MAX)%Z then Some r else None.

(** The members that [getParameters] fills (lines 434-474). *)
Record Parameters := mkParameters {
  odom_topic_ : string;
  nav_sat_fix_topic_ : string;
  ephemeris_topic_ : string;
  dual_band_range_topic_ : string;
  port_ : string;
  baudrate_ : Z;
  log_commands_ : string;
  configure_port_ : string;
  gps_default_logs_period_ : float;
  span_default_logs_period_ : float;
  ephem_default_logs_period_ : float;
  range_default_logs_period_ : float
}.

(** What the parameter server holds: for each name a value or nothing. *)
Record ParameterServer := mkParameterServer {
  srv_odom_topic : option string;
  srv_nav_sat_fix_topic : option string;
  srv_ephemeris_topic : option string;
  srv_dual_band_range_topic : option string;
  srv_port : option string;
  srv_baudrate : option Z;
  srv_log_commands : option string;
  srv_configure_port : option string;
  srv_gps_default_logs_period : option float;
  srv_span_default_logs_period : option float;
  srv_ephem_default_logs_period : option float;
  srv_range_default_logs_period : option float
}.

(** [nh_.param(name, member, fallback)] for each member; the function
    returns true on every path. *)
Definition getParameters (srv : ParameterServer) : bool * Parameters :=
  (true,
   mkParameters
     (default "/gps_odom"%string (srv_odom_topic srv))
     (default "/gps_fix"%string (srv_nav_sat_fix_topic srv))
     (default "/ephemeris"%string (srv_ephemeris_topic srv))
     (default "/range"%string (srv_dual_band_range_topic srv))
     (default "/dev/ttyUSB0"%string (srv_port srv))
     (default 9600%Z (srv_baudrate srv))
     (default "BESTUTMB ONTIME 1.0"%string (srv_log_commands srv))
     (default ""%string (srv_configure_port srv))
     (default 0.05%float (srv_gps_default_logs_period srv))
     (default 0.05%float (srv_span_default_logs_period srv))
     (default 60%float (srv_ephem_default_logs_period srv))
     (default 0.05%float (srv_range_default_logs_period srv))).

(** A call that [run] makes on the publishers' node handle, on the
    driver, or on the log. *)
Inductive Action :=
| advertise (topic : string)
| Connect (port : string) (baudrate : Z)
| ConfigureLogs (log_string : string)
| ConfigureInterfaceMode (com_port rx_mode tx_mode : string)
| ConfigureBaudRate (com_port : string) (baudrate : Z)
| ROS_ERROR_STREAM (message : string)
| spin.

(** Lines 394-426: the directive "com_port,baud_rate,rx_mode,tx_mode".
    The first token is read, and converted with [atoi], before the tokens
    are counted: when there is no token the iterator that is dereferenced
    is the end iterator, and there is no result. *)
Definition run_configure_port (configure_port_ : string)
  : option (list Action) :=
  if nonempty configure_port_ then
    let tokens := tokenize ","%char configure_port_ in
    num_comps_string ← head tokens;
    number_components ← atoi num_comps_string;
    let token_count := length tokens in
    if negb (Nat.eqb token_count 4) then
      Some [ROS_ERROR_STREAM
              (String.append
                 "Incorrect number of tokens in configure port parameter: "
                 configure_port_)]
    else
      match tokens with
      | [com_port; baud; rx_mode; tx_mode] =>
          baudrate ← atoi baud;
          Some [ConfigureInterfaceMode com_port rx_mode tx_mode;
                ConfigureBaudRate com_port baudrate]
      | _ => None
      end
  else Some [].

(** Lines 353-391: the four default log requests.  [fixed2] is the text
    that a [std::stringstream] with [precision(2)] and [std::fixed] writes
    for a double; it is a parameter.  The request for the inertial logs
    is guarded by [span_default_logs_period_] and writes
    [gps_default_logs_period_], as the source does. *)
Definition run_default_logs (fixed2 : float -> string) (p : Parameters)
  : list Action :=
  (if (0 <? gps_default_logs_period_ p)%float then
     [ConfigureLogs
        (String.append "BESTUTMB ONTIME "
           (String.append (fixed2 (gps_default_logs_period_ p))
              (String.append ";"
                 (String.append "BESTVELB ONTIME "
                    (String.append (fixed2 (gps_default_logs_period_ p))
                                   ";")))))]
   else [])
  ++ (if (0 <? span_default_logs_period_ p)%float then
        [ConfigureLogs
           (String.append "INSPVAB ONTIME "
              (String.append (fixed2 (gps_default_logs_period_ p))
                 (String.append ";"
                    (String.append "INSCOVB ONTIME "
                       (fixed2 (gps_default_logs_period_ p))))))]
      else [])
  ++ (if (0 <? ephem_default_logs_period_ p)%float then
        [ConfigureLogs
           (String.append "GPSEPHEMB ONTIME "
              (String.append (fixed2 (ephem_default_logs_period_ p)) ";"))]
      else [])
  ++ (if (0 <? range_default_logs_period_ p)%float then
        [ConfigureLogs
           (String.append "RANGEB ONTIME "
              (String.append (fixed2 (range_default_logs_period_ p)) ";"))]
      else []).

(** Lines 340-428. *)
Definition run (fixed2 : float -> string) (srv : ParameterServer)
  : option (list Action) :=
  let '(ok, p) := getParameters srv in
  if negb ok then Some []
  else
    port_actions ← run_configure_port (configure_port_ p);
    Some ([advertise (odom_topic_ p); advertise (nav_sat_fix_topic_ p);
           advertise (ephemeris_topic_ p);
           advertise (dual_band_range_topic_ p);
           Connect (port_ p) (baudrate_ p)]
          ++ run_default_logs fixed2 p
          ++ [ConfigureLogs (log_commands_ p)]
          ++ port_actions
          ++ [spin]).

(** Whether an action is a command to the receiver or the report of an
    error, as opposed to the set-up and the main loop of the node. *)
Definition is_receiver_command (a : Action) : bool :=
  match a with
  | ConfigureLogs _ | ConfigureInterfaceMode _ _ _ | ConfigureBaudRate _ _
  | ROS_ERROR_STREAM _ => true
  | advertise _ | Connect _ _ | spin => false
  end.

(** Sample directives for the serial port. *)
Module Config_sample.

Definition server (configure_port : string) : ParameterServer :=
  mkParameterServer None None None None None None None (Some configure_port)
    None None None None.

Definition rtk_port : string := "COM2,9600,RTCA,NONE".

End Config_sample.

(** ** The callbacks

    The constructor (lines 77-85) registers one handler for each of eight
    kinds of decoded log. *)
Inductive Log :=
| best_utm_position (pos : UtmPosition.t)
| best_velocity (vel : Velocity.t)
| ins_position_velocity_attitude_short
    (ins_pva : InsPositionVelocityAttitudeShort.t)
| ins_covariance_short (cov : InsCovarianceShort.t)
| raw_imu_short
| receiver_hardware_status
| gps_ephemeris (ephem : GpsEphemeris.t)
| range_measurements (range : RangeMeasurements.t).

(** A decoded log with its reception time and the clock reading at the
    moment its handler runs. *)
Record Event := mkEvent {
  ev_log : Log;
  ev_timestamp : float;
  ev_now : Time
}.

(** Raw-IMU and hardware-status logs, whose handlers have no body. *)
Definition unhandled (e : Event) : bool :=
  match ev_log e with
  | raw_imu_short | receiver_hardware_status => true
  | _ => false
  end.

(** The number of messages that the handler of a log publishes. *)
Definition publications (e : Event) : nat :=
  match ev_log e with
  | best_utm_position _ | ins_position_velocity_attitude_short _ => 2
  | gps_ephemeris _ | range_measurements _ => 1
  | _ => 0
  end.

(** The velocity that the node caches after a sequence of logs: the one
    of the last velocity log, or the one it had. *)
Definition last_velocity (events : list Event) (vel : Velocity.t)
  : Velocity.t :=
  foldl (fun v e => match ev_log e with best_velocity v' => v' | _ => v end)
        vel events.

Definition last_ins_cov (events : list Event) (cov : InsCovarianceShort.t)
  : InsCovarianceShort.t :=
  foldl (fun c e => match ev_log e with ins_covariance_short c' => c' | _ => c end)
        cov events.

(** A sample sequence of logs: a velocity, a raw-IMU log, an ephemeris,
    a range log, a covariance record, and a position fix of the
    velocity's epoch. *)
Module Log_sample.

Definition events : list Event :=
  [mkEvent (best_velocity (Sample.velocity 100 5000 PositionType.SINGLE 2))
     1%float 10%Z;
   mkEvent raw_imu_short 2%float 11%Z;
   mkEvent (gps_ephemeris (Sample.ephemeris 5)) 3%float 12%Z;
   mkEvent (range_measurements Sample.range) 4%float 13%Z;
   mkEvent (ins_covariance_short (Sample.ins_cov 100 5000)) 5%float 14%Z;
   mkEvent (best_utm_position (Sample.position 100 5000)) 6%float 15%Z].

Definition node : NovatelNode :=
  Sample.node (Sample.velocity 0 0 0 0) (Sample.ins_cov 0 0).

(** A stand-in for the text that the stream writes for a period. *)
Definition fixed2 (x : float) : string := "0.05".

Definition words : list string := ["COM2"; "9600"; "RTCA"; "NONE"]%string.

End Log_sample.

(** ** The odometry half of BestUtmHandler, and InsPvaHandler

    Functions of other libraries that the two handlers call are
    parameters: the sine and cosine of <cmath>, the two quaternion
    constructors of tf, and the projection of the driver library.

    [mul_stddev] is the product [*] of lines 145-147.  Its operands are
    the standard-deviation members of [UtmPosition], declared in a header
    that is not part of these sources; in the receiver's log they are
    single-precision numbers, whose product C++ rounds to single precision
    before it widens it to the double element of the covariance.  The
    product at the members' type is a parameter of the section;
    [mul_single] is the product of the program, and the diagonal of the
    pose covariance is stated with it, after the section.

    The properties of the two handlers are proved in the same section,
    for every choice of these functions. *)
Section Odometry_handlers.

Context (cos sin : float -> float).
Context (createQuaternionMsgFromYaw : float -> Quaternion.t).
Context (createQuaternionMsgFromRollPitchYaw :
           float -> float -> float -> Quaternion.t).
Context (ConvertLLaUTM : float -> float -> float * float * Z * bool).
Context (mul_stddev : float -> float -> float).

(** Lines 135-150: position and the diagonal of the pose covariance. *)
Definition BestUtm_odom_position (pos : UtmPosition.t) (stamp : Time)
  : Odometry.t :=
  let cur_odom_ := Odometry.init in
  let cur_odom_ := Odometry.set_header stamp "/odom" cur_odom_ in
  let cur_odom_ :=
    Odometry.set_position
      (Vector3.mk (UtmPosition.easting pos) (UtmPosition.northing pos)
                  (UtmPosition.height pos)) cur_odom_ in
  let cur_odom_ :=
    Odometry.set_pose_covariance 0
      (mul_stddev (UtmPosition.easting_standard_deviation pos)
                  (UtmPosition.easting_standard_deviation pos)) cur_odom_ in
  let cur_odom_ :=
    Odometry.set_pose_covariance 7
      (mul_stddev (UtmPosition.northing_standard_deviation pos)
                  (UtmPosition.northing_standard_deviation pos)) cur_odom_ in
  let cur_odom_ :=
    Odometry.set_pose_covariance 14
      (mul_stddev (UtmPosition.height_standard_deviation pos)
                  (UtmPosition.height_standard_deviation pos)) cur_odom_ in
  (* have no way of knowing roll and pitch with just GPS *)
  let cur_odom_ := Odometry.set_pose_covariance 21 DBL_MAX cur_odom_ in
  let cur_odom_ := Odometry.set_pose_covariance 28 DBL_MAX cur_odom_ in
  cur_odom_.

(** Lines 156-175: the body of the [if] on the velocity's epoch. *)
Definition BestUtm_odom_velocity (vel : Velocity.t) (cur_odom_ : Odometry.t)
  : Odometry.t :=
  let cur_odom_ :=
    Odometry.set_twist_linear
      (Vector3.mk
         (Velocity.horizontal_speed vel * cos (Velocity.track_over_ground vel))
         (Velocity.horizontal_speed vel * sin (Velocity.track_over_ground vel))
         (Velocity.vertical_speed vel)) cur_odom_ in
  let cur_odom_ :=
    Odometry.set_orientation
      (createQuaternionMsgFromYaw
         (Velocity.track_over_ground vel * degrees_to_radians)) cur_odom_ in
  (* if i have a fix, velocity std, dev is constant *)
  if (PositionType.NONE <? Velocity.position_type vel)%Z then
    (* yaw covariance *)
    let heading_std_dev := (sigma_v / Velocity.horizontal_speed vel)%float in
    let cur_odom_ :=
      Odometry.set_pose_covariance 35 (heading_std_dev * heading_std_dev)
        cur_odom_ in
    (* x and y velocity covariance *)
    let cur_odom_ :=
      Odometry.set_twist_covariance 0 (sigma_v * sigma_v) cur_odom_ in
    let cur_odom_ :=
      Odometry.set_twist_covariance 7 (sigma_v * sigma_v) cur_odom_ in
    cur_odom_
  else
    let cur_odom_ := Odometry.set_pose_covariance 35 DBL_MAX cur_odom_ in
    let cur_odom_ := Odometry.set_twist_covariance 0 DBL_MAX cur_odom_ in
    let cur_odom_ := Odometry.set_twist_covariance 7 DBL_MAX cur_odom_ in
    cur_odom_.

(** Lines 135-177: the odometry message that the handler publishes. *)
Definition BestUtm_odom (self : NovatelNode) (pos : UtmPosition.t)
    (stamp : Time) : Odometry.t :=
  let cur_odom_ := BestUtm_odom_position pos stamp in
  (* see if there is a recent velocity message *)
  if BestUtm_velocity_matches (cur_velocity_ self) pos
  then BestUtm_odom_velocity (cur_velocity_ self) cur_odom_
  else cur_odom_.

Definition BestUtmHandler (self : NovatelNode) (pos : UtmPosition.t)
    (timestamp : float) (now : Time) : NovatelNode * list Published :=
  let sat_fix := BestUtm_sat_fix pos now in
  let cur_odom_ := BestUtm_odom self pos (NavSatFix.stamp sat_fix) in
  (self, [nav_sat_fix_publisher_ sat_fix; odom_publisher_ cur_odom_]).

(** Lines 198-215 of InsPvaHandler. *)
Definition InsPva_sat_fix (ins_pva : InsPositionVelocityAttitudeShort.t)
    (now : Time) : NavSatFix.t :=
  NavSatFix.mk now "/odom"
    (NavSatStatus.mk
       (if (InsPositionVelocityAttitudeShort.status ins_pva
              =? InsStatus.INS_SOLUTION_GOOD)%Z
        then NavSatStatus.STATUS_FIX else NavSatStatus.STATUS_NO_FIX)
       NavSatStatus.SERVICE_GPS)
    (InsPositionVelocityAttitudeShort.latitude ins_pva)
    (InsPositionVelocityAttitudeShort.longitude ins_pva)
    (InsPositionVelocityAttitudeShort.height ins_pva)
    (replicate 9 0%float)
    NavSatFix.COVARIANCE_TYPE_DIAGONAL_KNOWN.

(** Lines 217-229: pose and twist of the inertial solution. *)
Definition InsPva_odom_solution (ins_pva : InsPositionVelocityAttitudeShort.t)
    (stamp : Time) : Odometry.t :=
  let '(northing, easting, zoneNum, north) :=
    ConvertLLaUTM (InsPositionVelocityAttitudeShort.latitude ins_pva)
                  (InsPositionVelocityAttitudeShort.longitude ins_pva) in
  let cur_odom_ := Odometry.init in
  let cur_odom_ := Odometry.set_header stamp "/odom" cur_odom_ in
  let cur_odom_ :=
    Odometry.set_position
      (Vector3.mk easting northing
         (InsPositionVelocityAttitudeShort.height ins_pva)) cur_odom_ in
  let cur_odom_ :=
    Odometry.set_orientation
      (createQuaternionMsgFromRollPitchYaw
         (InsPositionVelocityAttitudeShort.roll ins_pva)
         (InsPositionVelocityAttitudeShort.pitch ins_pva)
         (InsPositionVelocityAttitudeShort.azimuth ins_pva)) cur_odom_ in
  let cur_odom_ :=
    Odometry.set_twist_linear
      (Vector3.mk (InsPositionVelocityAttitudeShort.east_velocity ins_pva)
                  (InsPositionVelocityAttitudeShort.north_velocity ins_pva)
                  (InsPositionVelocityAttitudeShort.up_velocity ins_pva))
      cur_odom_ in
  cur_odom_.

(** Lines 236-264: the body of the [if] on the covariance's epoch. *)
Definition InsPva_odom_covariance (cov : InsCovarianceShort.t)
    (cur_odom_ : Odometry.t) : Odometry.t :=
  let P := InsCovarianceShort.position_covariance cov in
  let A := InsCovarianceShort.attitude_covariance cov in
  let V := InsCovarianceShort.velocity_covariance cov in
  let c := degrees_square_to_radians_square in
  let cur_odom_ := Odometry.set_pose_covariance 0 (P !!! 0%nat) cur_odom_ in
  let cur_odom_ := Odometry.set_pose_covariance 1 (P !!! 1%nat) cur_odom_ in
  let cur_odom_ := Odometry.set_pose_covariance 2 (P !!! 2%nat) cur_odom_ in
  let cur_odom_ := Odometry.set_pose_covariance 6 (P !!! 3%nat) cur_odom_ in
  let cur_odom_ := Odometry.set_pose_covariance 7 (P !!! 4%nat) cur_odom_ in
  let cur_odom_ := Odometry.set_pose_covariance 8 (P !!! 5%nat) cur_odom_ in
  let cur_odom_ := Odometry.set_pose_covariance 12 (P !!! 6%nat) cur_odom_ in
  let cur_odom_ := Odometry.set_pose_covariance 13 (P !!! 7%nat) cur_odom_ in
  let cur_odom_ := Odometry.set_pose_covariance 14 (P !!! 8%nat) cur_odom_ in

  let cur_odom_ := Odometry.set_pose_covariance 21 ((A !!! 0%nat) * c) cur_odom_ in
  let cur_odom_ := Odometry.set_pose_covariance 22 ((A !!! 1%nat) * c) cur_odom_ in
  let cur_odom_ := Odometry.set_pose_covariance 23 ((A !!! 2%nat) * c) cur_odom_ in
  let cur_odom_ := Odometry.set_pose_covariance 27 ((A !!! 3%nat) * c) cur_odom_ in
  let cur_odom_ := Odometry.set_pose_covariance 28 ((A !!! 4%nat) * c) cur_odom_ in
  let cur_odom_ := Odometry.set_pose_covariance 29 ((A !!! 5%nat) * c) cur_odom_ in
  let cur_odom_ := Odometry.set_pose_covariance 33 ((A !!! 6%nat) * c) cur_odom_ in
  let cur_odom_ := Odometry.set_pose_covariance 34 ((A !!! 7%nat) * c) cur_odom_ in
  let cur_odom_ := Odometry.set_pose_covariance 35 ((A !!! 8%nat) * c) cur_odom_ in

  let cur_odom_ := Odometry.set_twist_covariance 0 (V !!! 0%nat) cur_odom_ in
  let cur_odom_ := Odometry.set_twist_covariance 1 (V !!! 1%nat) cur_odom_ in
  let cur_odom_ := Odometry.set_twist_covariance 2 (V !!! 2%nat) cur_odom_ in
  let cur_odom_ := Odometry.set_twist_covariance 6 (V !!! 3%nat) cur_odom_ in
  let cur_odom_ := Odometry.set_twist_covariance 7 (V !!! 4%nat) cur_odom_ in
  let cur_odom_ := Odometry.set_twist_covariance 8 (V !!! 5%nat) cur_odom_ in
  let cur_odom_ := Odometry.set_twist_covariance 12 (V !!! 6%nat) cur_odom_ in
  let cur_odom_ := Odometry.set_twist_covariance 13 (V !!! 7%nat) cur_odom_ in
  let cur_odom_ := Odometry.set_twist_covariance 14 (V !!! 8%nat) cur_odom_ in
  cur_odom_.

(** Lines 217-266: the odometry message that the handler publishes. *)
Definition InsPva_odom (self : NovatelNode)
    (ins_pva : InsPositionVelocityAttitudeShort.t) (stamp : Time)
  : Odometry.t :=
  let cur_odom_ := InsPva_odom_solution ins_pva stamp in
  (* see if there is a matching ins covariance message *)
  if InsPva_covariance_matches (cur_ins_cov_ self) ins_pva
  then InsPva_odom_covariance (cur_ins_cov_ self) cur_odom_
  else cur_odom_.

Definition InsPvaHandler (self : NovatelNode)
    (ins_pva : InsPositionVelocityAttitudeShort.t)
    (timestamp : float) (now : Time) : NovatelNode * list Published :=
  let sat_fix := InsPva_sat_fix ins_pva now in
  let cur_odom_ := InsPva_odom self ins_pva (NavSatFix.stamp sat_fix) in
  (self, [nav_sat_fix_publisher_ sat_fix; odom_publisher_ cur_odom_]).

(** The handler that the driver calls for a decoded log. *)
Definition dispatch (MAX_CHAN capacity : nat) (self : NovatelNode) (e : Event)
  : option (NovatelNode * list Published) :=
  match ev_log e with
  | best_utm_position pos =>
      Some (BestUtmHandler self pos (ev_timestamp e) (ev_now e))
  | best_velocity vel => Some (BestVelocityHandler self vel (ev_timestamp e))
  | ins_position_velocity_attitude_short ins_pva =>
      Some (InsPvaHandler self ins_pva (ev_timestamp e) (ev_now e))
  | ins_covariance_short cov => Some (InsCovHandler self cov (ev_timestamp e))
  | raw_imu_short => Some (RawImuHandler self (ev_timestamp e))
  | receiver_hardware_status =>
      Some (HardwareStatusHandler self (ev_timestamp e))
  | gps_ephemeris ephem =>
      EphemerisHandler self ephem (ev_timestamp e) (ev_now e)
  | range_measurements range =>
      RangeHandler MAX_CHAN capacity self range (ev_timestamp e) (ev_now e)
  end.

(** The handlers run one after the other, each to its end, on the logs
    in their order of arrival; the published messages are collected. *)
Fixpoint handle_logs (MAX_CHAN capacity : nat) (self : NovatelNode)
    (events : list Event) : option (NovatelNode * list Published) :=
  match events with
  | [] => Some (self, [])
  | e :: events' =>
      r ← dispatch MAX_CHAN capacity self e;
      r' ← handle_logs MAX_CHAN capacity r.1 events';
      Some (r'.1, r.2 ++ r'.2)
  end.

(** * Properties *)

(** ** Numbers *)

Lemma DBL_MAX_not_zero : DBL_MAX <> 0%float.
Proof.
  intros H. apply (f_equal (fun v => PrimFloat.eqb v 0)) in H.
  vm_compute in H. discriminate.
Qed.

Lemma infinity_not_DBL_MAX : infinity <> DBL_MAX.
Proof.
  intros H. apply (f_equal (fun v => PrimFloat.ltb DBL_MAX v)) in H.
  vm_compute in H. discriminate.
Qed.

Lemma sigma_v_squared_not_zero : (sigma_v * sigma_v)%float <> 0%float.
Proof.
  intros H. apply (f_equal (fun v => PrimFloat.eqb v 0)) in H.
  vm_compute in H. discriminate.
Qed.

(** The conversion factor is the square of pi/180, about 3.046e-4, and
    multiplying 1.0 by it is exact. *)
Lemma degrees_square_to_radians_square_value :
  degrees_square_to_radians_square = ((M_PI / 180) * (M_PI / 180))%float
  /\ (3.046e-4 <? degrees_square_to_radians_square)%float = true
  /\ (degrees_square_to_radians_square <? 3.047e-4)%float = true
  /\ (1 * degrees_square_to_radians_square)%float
     = degrees_square_to_radians_square.
Proof. repeat split; reflexivity. Qed.

(** Dividing the velocity sigma by a zero speed, of either sign, and
    squaring gives infinity. *)
Lemma heading_variance_at_zero_speed :
  ((sigma_v / 0) * (sigma_v / 0))%float = infinity
  /\ ((sigma_v / -0) * (sigma_v / -0))%float = infinity.
Proof. split; reflexivity. Qed.

(** ** Epoch tests *)

Lemma BestUtm_velocity_matches_iff vel pos :
  BestUtm_velocity_matches vel pos = true <->
  Oem4BinaryHeader.gps_week (Velocity.header vel)
    = Oem4BinaryHeader.gps_week (UtmPosition.header pos)
  /\ Oem4BinaryHeader.gps_millisecs (Velocity.header vel)
    = Oem4BinaryHeader.gps_millisecs (UtmPosition.header pos).
Proof.
  unfold BestUtm_velocity_matches.
  rewrite andb_true_iff, !Z.eqb_eq. reflexivity.
Qed.

Lemma InsPva_covariance_matches_iff cov ins_pva :
  InsPva_covariance_matches cov ins_pva = true <->
  InsCovarianceShort.gps_week cov
    = InsPositionVelocityAttitudeShort.gps_week ins_pva
  /\ InsCovarianceShort.gps_millisecs cov
    = InsPositionVelocityAttitudeShort.gps_millisecs ins_pva.
Proof.
  unfold InsPva_covariance_matches.
  rewrite andb_true_iff, !Z.eqb_eq. reflexivity.
Qed.

(** What the handlers publish: the fix, then the odometry. *)
Lemma BestUtmHandler_published self pos timestamp now :
  published_odom (BestUtmHandler self pos timestamp now)
  = Some (BestUtm_odom self pos now).
Proof. reflexivity. Qed.

Lemma InsPvaHandler_published self ins_pva timestamp now :
  published_odom (InsPvaHandler self ins_pva timestamp now)
  = Some (InsPva_odom self ins_pva now).
Proof. reflexivity. Qed.

(** The velocity block changes the message it is given: it stores a
    non-zero variance where the position block left 0. *)
Lemma BestUtm_odom_velocity_visible vel pos stamp :
  BestUtm_odom_velocity vel (BestUtm_odom_position pos stamp)
  <> BestUtm_odom_position pos stamp.
Proof.
  intros H.
  apply (f_equal (fun o => Odometry.twist_covariance o !!! 0%nat)) in H.
  unfold BestUtm_odom_velocity in H.
  destruct (PositionType.NONE <? Velocity.position_type vel)%Z; cbn in H.
  - exact (sigma_v_squared_not_zero H).
  - exact (DBL_MAX_not_zero H).
Qed.

(** C1: the block that copies the cached record into the odometry runs
    exactly when the cached record and the incoming record have the same
    GPS week and the same GPS milliseconds.  For a position fix and the
    cached velocity: with equal epochs the published odometry is the
    velocity block applied to the position-only message, otherwise it is
    the position-only message; and since the velocity block always changes
    that message, the published odometry is the fused one if and only if
    both members are equal.  For an inertial solution and the cached
    covariance: with equal epochs the published odometry is the covariance
    block applied to the solution-only message, otherwise the solution-only
    message. *)
Theorem C1_fusion_iff_same_epoch :
  forall (self : NovatelNode) (pos : UtmPosition.t)
         (ins_pva : InsPositionVelocityAttitudeShort.t)
         (timestamp : float) (now : Time),
    let vel := cur_velocity_ self in
    let cov := cur_ins_cov_ self in
    let same_epoch_vel :=
      Oem4BinaryHeader.gps_week (Velocity.header vel)
        = Oem4BinaryHeader.gps_week (UtmPosition.header pos)
      /\ Oem4BinaryHeader.gps_millisecs (Velocity.header vel)
        = Oem4BinaryHeader.gps_millisecs (UtmPosition.header pos) in
    let same_epoch_cov :=
      InsCovarianceShort.gps_week cov
        = InsPositionVelocityAttitudeShort.gps_week ins_pva
      /\ InsCovarianceShort.gps_millisecs cov
        = InsPositionVelocityAttitudeShort.gps_millisecs ins_pva in
    (same_epoch_vel ->
       published_odom (BestUtmHandler self pos timestamp now)
       = Some (BestUtm_odom_velocity vel (BestUtm_odom_position pos now)))
    /\ (~ same_epoch_vel ->
       published_odom (BestUtmHandler self pos timestamp now)
       = Some (BestUtm_odom_position pos now))
    /\ (published_odom (BestUtmHandler self pos timestamp now)
        = Some (BestUtm_odom_velocity vel (BestUtm_odom_position pos now))
        <-> same_epoch_vel)
    /\ (same_epoch_cov ->
       published_odom (InsPvaHandler self ins_pva timestamp now)
       = Some (InsPva_odom_covariance cov (InsPva_odom_solution ins_pva now)))
    /\ (~ same_epoch_cov ->
       published_odom (InsPvaHandler self ins_pva timestamp now)
       = Some (InsPva_odom_solution ins_pva now)).
Proof.
  intros self pos ins_pva timestamp now vel cov same_epoch_vel same_epoch_cov.
  rewrite BestUtmHandler_published, InsPvaHandler_published.
  unfold BestUtm_odom, InsPva_odom.
  fold vel cov.
  pose proof (BestUtm_velocity_matches_iff vel pos) as Hv.
  pose proof (InsPva_covariance_matches_iff cov ins_pva) as Hc.
  fold same_epoch_vel in Hv. fold same_epoch_cov in Hc.
  assert (Hvis : forall a b : Odometry.t,
             Some a = Some b -> a = b).
  { intros a b H. apply (f_equal (default b)) in H. exact H. }
  destruct (BestUtm_velocity_matches vel pos);
    destruct (InsPva_covariance_matches cov ins_pva).
  all: repeat apply conj; try reflexivity.
  all: try (intros; apply Hv; reflexivity).
  all: try (intros; apply Hc; reflexivity).
  all: try (intros Hn; exfalso; apply Hn; first [apply Hv | apply Hc]; reflexivity).
  all: try (intros He; apply Hv in He; discriminate He).
  all: try (intros He; apply Hc in He; discriminate He).
  all: intros He; apply Hvis in He; symmetry in He;
    exfalso; exact (BestUtm_odom_velocity_visible _ _ _ He).
Qed.

(** ** The covariances of a position fix *)

(** Without a velocity of the same epoch, the three entries that only the
    velocity block writes keep the 0 of the default-constructed message. *)
Lemma BestUtm_odom_unmatched self pos stamp :
  BestUtm_velocity_matches (cur_velocity_ self) pos = false ->
  let odom := BestUtm_odom self pos stamp in
  Odometry.pose_covariance odom !! 35%nat = Some 0%float
  /\ Odometry.twist_covariance odom !! 0%nat = Some 0%float
  /\ Odometry.twist_covariance odom !! 7%nat = Some 0%float.
Proof.
  intros H. unfold BestUtm_odom. rewrite H.
  repeat split.
Qed.

(** With a velocity of the same epoch that has a fix and a zero speed, of
    either sign, the heading variance is infinite. *)
Lemma BestUtm_odom_zero_speed self pos stamp :
  BestUtm_velocity_matches (cur_velocity_ self) pos = true ->
  (PositionType.NONE < Velocity.position_type (cur_velocity_ self))%Z ->
  Velocity.horizontal_speed (cur_velocity_ self) = 0%float
  \/ Velocity.horizontal_speed (cur_velocity_ self) = (-0)%float ->
  Odometry.pose_covariance (BestUtm_odom self pos stamp) !! 35%nat
  = Some infinity.
Proof.
  intros H Hfix Hspeed. unfold BestUtm_odom. rewrite H.
  unfold BestUtm_odom_velocity.
  apply Z.ltb_lt in Hfix. rewrite Hfix.
  destruct Hspeed as [-> | ->]; reflexivity.
Qed.

(** C2 (the code departs from it): a position fix of epoch (100, 5001)
    arrives while the cached velocity has epoch (100, 5000).  The epochs do
    not match, and the published odometry has 0.0, not DBL_MAX, in pose
    covariance entry 35 and in twist covariance entries 0 and 7. *)
Theorem C2_unmatched_epoch_leaves_zero :
  forall (timestamp : float) (now : Time),
    let self :=
      Sample.node (Sample.velocity 100 5000 PositionType.SINGLE 3)
                  (Sample.ins_cov 0 0) in
    let pos := Sample.position 100 5001 in
    exists odom,
      published_odom (BestUtmHandler self pos timestamp now) = Some odom
      /\ BestUtm_velocity_matches (cur_velocity_ self) pos = false
      /\ Odometry.pose_covariance odom !! 35%nat = Some 0%float
      /\ Odometry.twist_covariance odom !! 0%nat = Some 0%float
      /\ Odometry.twist_covariance odom !! 7%nat = Some 0%float
      /\ DBL_MAX <> 0%float.
Proof.
  intros timestamp now self pos.
  exists (BestUtm_odom self pos now).
  split; [apply BestUtmHandler_published |].
  split; [reflexivity |].
  pose proof (BestUtm_odom_unmatched self pos now eq_refl) as (H35 & H0 & H7).
  auto using DBL_MAX_not_zero.
Qed.

(** C3 (the code departs from it): a position fix arrives while the
    cached velocity has the same epoch, a fix (position type SINGLE) and a
    horizontal speed of 0.  The quotient sigma_v / 0 is computed without a
    test of the speed, and the published pose covariance entry 35 is
    infinity: it is neither clamped to DBL_MAX nor otherwise marked. *)
Theorem C3_zero_speed_divides_by_zero :
  forall (timestamp : float) (now : Time),
    let self :=
      Sample.node (Sample.velocity 100 5000 PositionType.SINGLE 0)
                  (Sample.ins_cov 0 0) in
    let pos := Sample.position 100 5000 in
    exists odom,
      published_odom (BestUtmHandler self pos timestamp now) = Some odom
      /\ BestUtm_velocity_matches (cur_velocity_ self) pos = true
      /\ Velocity.horizontal_speed (cur_velocity_ self) = 0%float
      /\ Odometry.pose_covariance odom !! 35%nat
         = Some ((sigma_v / 0) * (sigma_v / 0))%float
      /\ Odometry.pose_covariance odom !! 35%nat = Some infinity
      /\ infinity <> DBL_MAX.
Proof.
  intros timestamp now self pos.
  exists (BestUtm_odom self pos now).
  split; [apply BestUtmHandler_published |].
  repeat split; apply infinity_not_DBL_MAX.
Qed.

(** C10: when the cached velocity has the epoch of the position fix, the
    twist's linear velocity is taken from it in every case; the yaw
    variance (pose covariance entry 35) is (sigma_v / horizontal_speed)^2
    and the twist covariance entries 0 and 7 are sigma_v^2 when the
    velocity's position type is greater than NONE, and all three are
    DBL_MAX when it is NONE; sigma_v is 0.05. *)
Theorem C10_fused_uncertainty_gated_on_fix :
  forall (self : NovatelNode) (pos : UtmPosition.t)
         (timestamp : float) (now : Time),
    let vel := cur_velocity_ self in
    Oem4BinaryHeader.gps_week (Velocity.header vel)
      = Oem4BinaryHeader.gps_week (UtmPosition.header pos) ->
    Oem4BinaryHeader.gps_millisecs (Velocity.header vel)
      = Oem4BinaryHeader.gps_millisecs (UtmPosition.header pos) ->
    exists odom,
      published_odom (BestUtmHandler self pos timestamp now) = Some odom
      /\ Odometry.twist_linear odom
         = Vector3.mk
             (Velocity.horizontal_speed vel * cos (Velocity.track_over_ground vel))
             (Velocity.horizontal_speed vel * sin (Velocity.track_over_ground vel))
             (Velocity.vertical_speed vel)
      /\ ((PositionType.NONE < Velocity.position_type vel)%Z ->
            Odometry.pose_covariance odom !! 35%nat
            = Some ((sigma_v / Velocity.horizontal_speed vel)
                    * (sigma_v / Velocity.horizontal_speed vel))%float
            /\ Odometry.twist_covariance odom !! 0%nat
               = Some (sigma_v * sigma_v)%float
            /\ Odometry.twist_covariance odom !! 7%nat
               = Some (sigma_v * sigma_v)%float)
      /\ (Velocity.position_type vel = PositionType.NONE ->
            Odometry.pose_covariance odom !! 35%nat = Some DBL_MAX
            /\ Odometry.twist_covariance odom !! 0%nat = Some DBL_MAX
            /\ Odometry.twist_covariance odom !! 7%nat = Some DBL_MAX)
      /\ sigma_v = 0.05%float.
Proof.
  intros self pos timestamp now vel Hweek Hms.
  exists (BestUtm_odom self pos now).
  split; [apply BestUtmHandler_published |].
  unfold BestUtm_odom. fold vel.
  replace (BestUtm_velocity_matches vel pos) with true
    by (symmetry; apply BestUtm_velocity_matches_iff; auto).
  unfold BestUtm_odom_velocity.
  destruct (PositionType.NONE <? Velocity.position_type vel)%Z eqn:Hfix.
  - apply Z.ltb_lt in Hfix.
    split; [reflexivity |]. split; [intros _; repeat split |].
    split; [| reflexivity].
    intros Hnone. rewrite Hnone in Hfix. lia.
  - apply Z.ltb_ge in Hfix.
    split; [reflexivity |]. split; [intros Hlt; lia |].
    split; [| reflexivity].
    intros _. repeat split.
Qed.

(** The example of the epoch correlator: a velocity of epoch (100, 5000)
    is cached; a fix of epoch (100, 5000) is fused with it, a fix of epoch
    (100, 5001) is not. *)
Lemma epoch_correlator_example (self0 : NovatelNode) (timestamp : float)
    (now : Time) :
  let vel := Sample.velocity 100 5000 PositionType.SINGLE 2 in
  let self := (BestVelocityHandler self0 vel timestamp).1 in
  cur_velocity_ self = vel
  /\ BestUtm_odom self (Sample.position 100 5000) now
     = BestUtm_odom_velocity vel
         (BestUtm_odom_position (Sample.position 100 5000) now)
  /\ BestUtm_odom self (Sample.position 100 5001) now
     = BestUtm_odom_position (Sample.position 100 5001) now.
Proof. repeat split. Qed.

(** ** The covariances of an inertial solution *)

(** C6: when the cached covariance record has the epoch of the inertial
    solution, entry (i, j) of its attitude block, in degrees squared, is
    multiplied once by degrees_square_to_radians_square = (pi/180)^2 and
    stored in the rotation quadrant of the pose covariance, at row 3 + i
    and column 3 + j; entry (i, j) of the position block is stored as it
    is at row i and column j of the pose covariance, and entry (i, j) of
    the velocity block as it is at row i and column j of the twist
    covariance.  The factor is about 3.046e-4, and an entry of 1.0 is
    converted to the factor itself. *)
Theorem C6_attitude_block_scaled_once :
  forall (self : NovatelNode) (ins_pva : InsPositionVelocityAttitudeShort.t)
         (timestamp : float) (now : Time),
    let cov := cur_ins_cov_ self in
    InsCovarianceShort.gps_week cov
      = InsPositionVelocityAttitudeShort.gps_week ins_pva ->
    InsCovarianceShort.gps_millisecs cov
      = InsPositionVelocityAttitudeShort.gps_millisecs ins_pva ->
    exists odom,
      published_odom (InsPvaHandler self ins_pva timestamp now) = Some odom
      /\ (forall i j : nat, (i < 3)%nat -> (j < 3)%nat ->
           Odometry.pose_covariance odom !! (6 * i + j)%nat
           = Some (InsCovarianceShort.position_covariance cov !!! (3 * i + j)%nat)
           /\ Odometry.pose_covariance odom !! (6 * (3 + i) + (3 + j))%nat
              = Some ((InsCovarianceShort.attitude_covariance cov
                         !!! (3 * i + j)%nat)
                      * degrees_square_to_radians_square)%float
           /\ Odometry.twist_covariance odom !! (6 * i + j)%nat
              = Some (InsCovarianceShort.velocity_covariance cov !!! (3 * i + j)%nat))
      /\ degrees_square_to_radians_square
         = ((M_PI / 180) * (M_PI / 180))%float
      /\ (1 * degrees_square_to_radians_square)%float
         = degrees_square_to_radians_square
      /\ (3.046e-4 <? degrees_square_to_radians_square)%float = true
      /\ (degrees_square_to_radians_square <? 3.047e-4)%float = true.
Proof.
  intros self ins_pva timestamp now cov Hweek Hms.
  exists (InsPva_odom self ins_pva now).
  split; [apply InsPvaHandler_published |].
  split; [| repeat split].
  unfold InsPva_odom. fold cov.
  replace (InsPva_covariance_matches cov ins_pva) with true
    by (symmetry; apply InsPva_covariance_matches_iff; auto).
  unfold InsPva_odom_covariance, InsPva_odom_solution.
  destruct (ConvertLLaUTM _ _) as [[[northing easting] zoneNum] north].
  intros i j Hi Hj.
  destruct i as [| [| [| i]]]; [| | | lia];
    (destruct j as [| [| [| j]]]; [| | | lia]);
    repeat split.
Qed.

(** ** More on the two odometry handlers *)

(** The message that the position block builds, entry by entry. *)
Lemma BestUtm_odom_position_covariances pos stamp :
  Odometry.twist_covariance (BestUtm_odom_position pos stamp)
  = replicate 36 0%float
  /\ length (Odometry.pose_covariance (BestUtm_odom_position pos stamp))
     = 36%nat
  /\ forall k : nat, (k < 36)%nat ->
       k <> 0%nat -> k <> 7%nat -> k <> 14%nat -> k <> 21%nat ->
       k <> 28%nat ->
       Odometry.pose_covariance (BestUtm_odom_position pos stamp) !! k
       = Some 0%float.
Proof.
  split; [reflexivity |]. split; [reflexivity |].
  intros k Hk H0 H7 H14 H21 H28.
  unfold BestUtm_odom_position.
  cbn [Odometry.pose_covariance Odometry.set_pose_covariance
       Odometry.set_position Odometry.set_header Odometry.init].
  rewrite !list_lookup_insert_ne by auto.
  apply lookup_replicate_2. exact Hk.
Qed.

(** X1: the velocity block of BestUtmHandler, applied to any odometry
    message, writes the twist's linear velocity, the orientation, pose
    covariance entry 35 and twist covariance entries 0 and 7, and nothing
    else: stamp, frame, position, angular velocity, every other entry of
    the two covariances and their lengths are kept. *)
Theorem X1_velocity_block_frame :
  forall (vel : Velocity.t) (o : Odometry.t),
    let o' := BestUtm_odom_velocity vel o in
    Odometry.stamp o' = Odometry.stamp o
    /\ Odometry.frame_id o' = Odometry.frame_id o
    /\ Odometry.position o' = Odometry.position o
    /\ Odometry.twist_angular o' = Odometry.twist_angular o
    /\ length (Odometry.pose_covariance o')
       = length (Odometry.pose_covariance o)
    /\ length (Odometry.twist_covariance o')
       = length (Odometry.twist_covariance o)
    /\ (forall k : nat, k <> 35%nat ->
          Odometry.pose_covariance o' !! k = Odometry.pose_covariance o !! k)
    /\ (forall k : nat, k <> 0%nat -> k <> 7%nat ->
          Odometry.twist_covariance o' !! k
          = Odometry.twist_covariance o !! k).
Proof.
  intros vel o o'. subst o'. unfold BestUtm_odom_velocity.
  destruct (PositionType.NONE <? Velocity.position_type vel)%Z; cbn.
  all: rewrite !length_insert.
  all: repeat (split; [reflexivity |]).
  all: split; intros k; intros;
    rewrite ?list_lookup_insert_ne by auto; reflexivity.
Qed.

(** X2: in the odometry published for a position fix, whatever velocity
    is cached, both covariances have 36 entries, every entry of the pose
    covariance other than 0, 7, 14, 21, 28 and 35 is 0, and every entry of
    the twist covariance other than 0 and 7 is 0: no off-diagonal term is
    ever written. *)
Theorem X2_position_fix_covariances_diagonal :
  forall (self : NovatelNode) (pos : UtmPosition.t)
         (timestamp : float) (now : Time),
  exists odom,
    published_odom (BestUtmHandler self pos timestamp now) = Some odom
    /\ length (Odometry.pose_covariance odom) = 36%nat
    /\ length (Odometry.twist_covariance odom) = 36%nat
    /\ (forall k : nat, (k < 36)%nat ->
          k <> 0%nat -> k <> 7%nat -> k <> 14%nat -> k <> 21%nat ->
          k <> 28%nat -> k <> 35%nat ->
          Odometry.pose_covariance odom !! k = Some 0%float)
    /\ (forall k : nat, (k < 36)%nat -> k <> 0%nat -> k <> 7%nat ->
          Odometry.twist_covariance odom !! k = Some 0%float).
Proof.
  intros self pos timestamp now.
  exists (BestUtm_odom self pos now).
  split; [apply BestUtmHandler_published |].
  destruct (BestUtm_odom_position_covariances pos now) as (Htw & Hlen & Hpose).
  unfold BestUtm_odom.
  destruct (BestUtm_velocity_matches (cur_velocity_ self) pos).
  - unfold BestUtm_odom_velocity.
    destruct (PositionType.NONE <? Velocity.position_type (cur_velocity_ self))%Z;
      cbn [Odometry.pose_covariance Odometry.twist_covariance
           Odometry.set_pose_covariance Odometry.set_twist_covariance
           Odometry.set_orientation Odometry.set_twist_linear];
      rewrite !length_insert, Hlen, Htw;
      (split; [reflexivity |]); (split; [reflexivity |]);
      (split; intros k; intros;
       rewrite !list_lookup_insert_ne by auto;
       [apply Hpose; assumption | apply lookup_replicate_2; assumption]).
  - rewrite Hlen, Htw.
    split; [reflexivity |]. split; [reflexivity |].
    split.
    + intros k Hk H0 H7 H14 H21 H28 H35. apply Hpose; assumption.
    + intros k Hk H0 H7. apply lookup_replicate_2. exact Hk.
Qed.

(** X3: for a position fix whose epoch differs from the cached
    velocity's in the week or in the milliseconds, the published odometry
    has the position of the fix, a linear velocity of (0, 0, 0), the
    all-zero quaternion of a default-constructed message as orientation,
    and a twist covariance of 36 zeros. *)
Theorem X3_unmatched_fix_has_default_twist :
  forall (self : NovatelNode) (pos : UtmPosition.t)
         (timestamp : float) (now : Time),
    ~ (Oem4BinaryHeader.gps_week (Velocity.header (cur_velocity_ self))
         = Oem4BinaryHeader.gps_week (UtmPosition.header pos)
       /\ Oem4BinaryHeader.gps_millisecs (Velocity.header (cur_velocity_ self))
          = Oem4BinaryHeader.gps_millisecs (UtmPosition.header pos)) ->
    exists odom,
      published_odom (BestUtmHandler self pos timestamp now) = Some odom
      /\ Odometry.position odom
         = Vector3.mk (UtmPosition.easting pos) (UtmPosition.northing pos)
                      (UtmPosition.height pos)
      /\ Odometry.twist_linear odom = Vector3.mk 0 0 0
      /\ Odometry.orientation odom = Quaternion.mk 0 0 0 0
      /\ Odometry.twist_covariance odom = replicate 36 0%float.
Proof.
  intros self pos timestamp now Hdiff.
  exists (BestUtm_odom self pos now).
  split; [apply BestUtmHandler_published |].
  unfold BestUtm_odom.
  destruct (BestUtm_velocity_matches (cur_velocity_ self) pos) eqn:Hm.
  - exfalso. apply Hdiff. apply BestUtm_velocity_matches_iff. exact Hm.
  - repeat split.
Qed.

(** X4: for an inertial solution whose epoch differs from the cached
    covariance record's, the published odometry still has the attitude
    and the velocity of the solution, and both of its covariances are 36
    zeros. *)
Theorem X4_unmatched_solution_has_zero_covariances :
  forall (self : NovatelNode) (ins_pva : InsPositionVelocityAttitudeShort.t)
         (timestamp : float) (now : Time),
    ~ (InsCovarianceShort.gps_week (cur_ins_cov_ self)
         = InsPositionVelocityAttitudeShort.gps_week ins_pva
       /\ InsCovarianceShort.gps_millisecs (cur_ins_cov_ self)
          = InsPositionVelocityAttitudeShort.gps_millisecs ins_pva) ->
    exists odom,
      published_odom (InsPvaHandler self ins_pva timestamp now) = Some odom
      /\ Odometry.orientation odom
         = createQuaternionMsgFromRollPitchYaw
             (InsPositionVelocityAttitudeShort.roll ins_pva)
             (InsPositionVelocityAttitudeShort.pitch ins_pva)
             (InsPositionVelocityAttitudeShort.azimuth ins_pva)
      /\ Odometry.twist_linear odom
         = Vector3.mk (InsPositionVelocityAttitudeShort.east_velocity ins_pva)
                      (InsPositionVelocityAttitudeShort.north_velocity ins_pva)
                      (InsPositionVelocityAttitudeShort.up_velocity ins_pva)
      /\ Odometry.pose_covariance odom = replicate 36 0%float
      /\ Odometry.twist_covariance odom = replicate 36 0%float.
Proof.
  intros self ins_pva timestamp now Hdiff.
  exists (InsPva_odom self ins_pva now).
  split; [apply InsPvaHandler_published |].
  unfold InsPva_odom.
  destruct (InsPva_covariance_matches (cur_ins_cov_ self) ins_pva) eqn:Hm.
  - exfalso. apply Hdiff. apply InsPva_covariance_matches_iff. exact Hm.
  - unfold InsPva_odom_solution.
    destruct (ConvertLLaUTM _ _) as [[[northing easting] zoneNum] north].
    repeat split.
Qed.

(** X5: for an inertial solution fused with a covariance record of its
    epoch, both covariances have 36 entries; in the pose covariance the
    two quadrants between position and attitude (rows 0-2 with columns
    3-5, rows 3-5 with columns 0-2) are 0, and in the twist covariance
    every entry outside rows 0-2 and columns 0-2 is 0. *)
Theorem X5_fused_solution_cross_terms_zero :
  forall (self : NovatelNode) (ins_pva : InsPositionVelocityAttitudeShort.t)
         (timestamp : float) (now : Time),
    InsCovarianceShort.gps_week (cur_ins_cov_ self)
      = InsPositionVelocityAttitudeShort.gps_week ins_pva ->
    InsCovarianceShort.gps_millisecs (cur_ins_cov_ self)
      = InsPositionVelocityAttitudeShort.gps_millisecs ins_pva ->
    exists odom,
      published_odom (InsPvaHandler self ins_pva timestamp now) = Some odom
      /\ length (Odometry.pose_covariance odom) = 36%nat
      /\ length (Odometry.twist_covariance odom) = 36%nat
      /\ (forall i j : nat, (i < 3)%nat -> (j < 3)%nat ->
            Odometry.pose_covariance odom !! (6 * i + (3 + j))%nat
            = Some 0%float
            /\ Odometry.pose_covariance odom !! (6 * (3 + i) + j)%nat
               = Some 0%float)
      /\ (forall r c : nat, (r < 6)%nat -> (c < 6)%nat ->
            (3 <= r)%nat \/ (3 <= c)%nat ->
            Odometry.twist_covariance odom !! (6 * r + c)%nat = Some 0%float).
Proof.
  intros self ins_pva timestamp now Hweek Hms.
  exists (InsPva_odom self ins_pva now).
  split; [apply InsPvaHandler_published |].
  unfold InsPva_odom.
  replace (InsPva_covariance_matches (cur_ins_cov_ self) ins_pva) with true
    by (symmetry; apply InsPva_covariance_matches_iff; auto).
  unfold InsPva_odom_covariance, InsPva_odom_solution.
  destruct (ConvertLLaUTM _ _) as [[[northing easting] zoneNum] north].
  split; [reflexivity |]. split; [reflexivity |]. split.
  - intros i j Hi Hj.
    destruct i as [| [| [| i]]]; [| | | lia];
      (destruct j as [| [| [| j]]]; [| | | lia]); split; reflexivity.
  - intros r c Hr Hc Hout.
    destruct r as [| [| [| [| [| [| r]]]]]]; [| | | | | | lia];
      (destruct c as [| [| [| [| [| [| c]]]]]]; [| | | | | | lia]);
      first [reflexivity | lia].
Qed.

End Odometry_handlers.

(** ** The diagonal of the pose covariance of a position fix *)

(** The single-precision product on the standard deviations 0.5, 3 and
    the single-precision numbers nearest to 0.1, 0.2 and 0.3: the squares
    are 0.25, 9 and the single-precision numbers nearest to 0.01, 0.04
    and 0.09 (0.010000000707805157, 0.04000000283122063 and
    0.09000000357627869).  The double-precision product of the same
    operands has more digits. *)
Lemma mul_single_squares :
  mul_single 0.5 0.5 = 0.25%float
  /\ mul_single 3 3 = 9%float
  /\ mul_single (-3) (-3) = 9%float
  /\ mul_single 0x1.99999ap-4 0x1.99999ap-4 = 0x1.47ae16p-7%float
  /\ mul_single 0x1.99999ap-3 0x1.99999ap-3 = 0x1.47ae16p-5%float
  /\ mul_single 0x1.333334p-2 0x1.333334p-2 = 0x1.70a3d8p-4%float
  /\ (0x1.99999ap-4 * 0x1.99999ap-4)%float = 0x1.47ae151eb852p-7%float.
Proof. repeat split. Qed.

(** C5: whatever the cached velocity, the odometry published for a
    position fix has a pose covariance of 36 entries.  Entries 0, 7 and
    14 are the squares of the easting, northing and height standard
    deviations, each the product of the standard deviation with itself in
    the single precision of these members; the roll and pitch entries 21
    and 28 are DBL_MAX, which is not 0.0.  For standard deviations of
    0.1, 0.2 and 0.3 (the single-precision numbers nearest to them) the
    three squares are the single-precision numbers nearest to 0.01, 0.04
    and 0.09. *)
Theorem C5_diagonal_pose_covariance :
  forall (cos sin : float -> float)
         (createQuaternionMsgFromYaw : float -> Quaternion.t)
         (self : NovatelNode) (pos : UtmPosition.t)
         (timestamp : float) (now : Time),
  exists odom,
    published_odom
      (BestUtmHandler cos sin createQuaternionMsgFromYaw mul_single
         self pos timestamp now) = Some odom
    /\ Odometry.pose_covariance odom !! 0%nat
       = Some (mul_single (UtmPosition.easting_standard_deviation pos)
                          (UtmPosition.easting_standard_deviation pos))
    /\ Odometry.pose_covariance odom !! 7%nat
       = Some (mul_single (UtmPosition.northing_standard_deviation pos)
                          (UtmPosition.northing_standard_deviation pos))
    /\ Odometry.pose_covariance odom !! 14%nat
       = Some (mul_single (UtmPosition.height_standard_deviation pos)
                          (UtmPosition.height_standard_deviation pos))
    /\ Odometry.pose_covariance odom !! 21%nat = Some DBL_MAX
    /\ Odometry.pose_covariance odom !! 28%nat = Some DBL_MAX
    /\ DBL_MAX <> 0%float
    /\ length (Odometry.pose_covariance odom) = 36%nat
    /\ mul_single 0x1.99999ap-4 0x1.99999ap-4 = 0x1.47ae16p-7%float
    /\ mul_single 0x1.99999ap-3 0x1.99999ap-3 = 0x1.47ae16p-5%float
    /\ mul_single 0x1.333334p-2 0x1.333334p-2 = 0x1.70a3d8p-4%float.
Proof.
  intros cos sin createQuaternionMsgFromYaw self pos timestamp now.
  exists (BestUtm_odom cos sin createQuaternionMsgFromYaw mul_single
            self pos now).
  split; [apply BestUtmHandler_published |].
  unfold BestUtm_odom.
  destruct (BestUtm_velocity_matches (cur_velocity_ self) pos).
  - unfold BestUtm_odom_velocity.
    destruct (PositionType.NONE <? Velocity.position_type (cur_velocity_ self))%Z;
      do 5 (split; [reflexivity |]);
      (split; [apply DBL_MAX_not_zero | repeat split]).
  - do 5 (split; [reflexivity |]).
    split; [apply DBL_MAX_not_zero | repeat split].
Qed.

(** ** The classification of the position type *)

(** The chain of comparisons of lines 99-118, by membership. *)
Lemma BestUtm_status_by_sets code :
  BestUtm_status code =
  if (code =? PositionType.NONE)%Z then NavSatStatus.STATUS_NO_FIX
  else if Spec.mem code Spec.sbas_codes then NavSatStatus.STATUS_SBAS_FIX
  else if Spec.mem code Spec.gbas_codes then NavSatStatus.STATUS_GBAS_FIX
  else NavSatStatus.STATUS_FIX.
Proof.
  unfold BestUtm_status, Spec.mem, Spec.sbas_codes, Spec.gbas_codes.
  cbn [existsb].
  repeat match goal with
         | |- context [(code =? ?c)%Z] =>
             destruct (code =? c)%Z; cbn [orb]; try reflexivity
         end.
Qed.

(** A code without an enumerator falls through every comparison. *)
Lemma BestUtm_status_unrecognized code :
  PositionType.recognized code = false ->
  BestUtm_status code = NavSatStatus.STATUS_FIX.
Proof.
  unfold PositionType.recognized, PositionType.enumerators.
  cbn [existsb]. intros H.
  repeat (apply orb_false_iff in H; destruct H as [? H]).
  unfold BestUtm_status.
  repeat match goal with
         | E : (code =? ?c)%Z = false |- _ => rewrite E; clear E
         end.
  reflexivity.
Qed.

(** On a code that has an enumerator, the chain gives the tier that the
    specification names. *)
Lemma BestUtm_status_recognized code t :
  Spec.classify code = inr t -> BestUtm_status code = Spec.status_of t.
Proof.
  rewrite BestUtm_status_by_sets. unfold Spec.classify.
  destruct (PositionType.recognized code); cbn [negb]; [| discriminate].
  destruct (code =? PositionType.NONE)%Z; [intros [= <-]; reflexivity |].
  destruct (Spec.mem code Spec.sbas_codes); [intros [= <-]; reflexivity |].
  destruct (Spec.mem code Spec.gbas_codes); intros [= <-]; reflexivity.
Qed.

(** C4, as the specification states it, fails on the code: 99 is the
    code of no enumerator, the specified classifier fails on it with
    UnrecognizedStatusCode, and the handler publishes a fix whose status
    is STATUS_FIX. *)
Lemma C4_unrecognized_code_gets_fix_tier :
  PositionType.recognized 99 = false
  /\ Spec.classify 99 = inl Spec.UnrecognizedStatusCode
  /\ NavSatStatus.status
       (NavSatFix.status
          (BestUtm_sat_fix (Sample.position_of_type 99 100 5000) 0%Z))
     = NavSatStatus.STATUS_FIX.
Proof. repeat split. Qed.

(** C4, amended: the classification is a total mapping of every integer
    code and never fails.  NONE gives STATUS_NO_FIX; the five codes WAAS,
    OMNISTAR, OMNISTAR_HP, OMNISTAR_XP and CDGPS give STATUS_SBAS_FIX; the
    eight codes PSRDIFF, NARROW_FLOAT, WIDE_INT, NARROW_INT,
    RTK_DIRECT_INS, INS_PSRDIFF, INS_RTKFLOAT and INS_RTKFIXED give
    STATUS_GBAS_FIX; every other code gives STATUS_FIX, whether it has an
    enumerator or not.  On the codes that have an enumerator this is the
    tier the specification names. *)
Theorem C4_classification_total_default_fix :
  forall (pos : UtmPosition.t) (now : Time),
    let code := UtmPosition.position_type pos in
    let status := NavSatStatus.status (NavSatFix.status (BestUtm_sat_fix pos now)) in
    status =
      (if (code =? PositionType.NONE)%Z then NavSatStatus.STATUS_NO_FIX
       else if Spec.mem code Spec.sbas_codes then NavSatStatus.STATUS_SBAS_FIX
       else if Spec.mem code Spec.gbas_codes then NavSatStatus.STATUS_GBAS_FIX
       else NavSatStatus.STATUS_FIX)
    /\ (forall t, Spec.classify code = inr t -> status = Spec.status_of t)
    /\ (PositionType.recognized code = false ->
        status = NavSatStatus.STATUS_FIX).
Proof.
  intros pos now code status. subst status. cbn [BestUtm_sat_fix
    NavSatFix.status NavSatStatus.status]. fold code.
  split; [apply BestUtm_status_by_sets |].
  split; [intros t; apply BestUtm_status_recognized
         | apply BestUtm_status_unrecognized].
Qed.

(** ** The ephemeris table *)

Lemma store_lt {A} (n : nat) (v : A) (a : list A) :
  (n < length a)%nat -> store n v a = Some (<[n := v]> a).
Proof. intros H. unfold store. case_decide; [reflexivity | lia]. Qed.

Lemma store_ge {A} (n : nat) (v : A) (a : list A) :
  (length a <= n)%nat -> store n v a = None.
Proof. intros H. unfold store. case_decide; [lia | reflexivity]. Qed.

(** For a satellite number between 1 and 256 the narrowed index is the
    number minus one. *)
Lemma Ephemeris_index_in_range (prn : Z) :
  (1 <= prn <= 256)%Z -> Ephemeris_index prn = Z.to_nat (prn - 1).
Proof.
  intros H. unfold Ephemeris_index. rewrite Z.mod_small by lia. reflexivity.
Qed.

Lemma Ephemeris_index_lt_256 (prn : Z) : (Ephemeris_index prn < 256)%nat.
Proof.
  unfold Ephemeris_index.
  pose proof (Z.mod_pos_bound (prn - 1) 256 ltac:(lia)). lia.
Qed.

Ltac wf_lengths H :=
  unfold Ephemeris.wf in H;
  repeat match type of H with _ /\ _ => let L := fresh "L" in destruct H as [L H] end.

(** When the index computed from the satellite number is inside the
    table, the handler overwrites that row with the log's values, leaves
    every other row as it was, and publishes the table it keeps. *)
Lemma EphemerisHandler_in_bounds (N : nat) self ephem timestamp now :
  Ephemeris.wf N (cur_ephem_ self) ->
  (Ephemeris_index (GpsEphemeris.prn ephem) < N)%nat ->
  exists table,
    EphemerisHandler self ephem timestamp now
    = Some (mkNode (cur_velocity_ self) (cur_ins_cov_ self) table,
            [ephemeris_publisher_ table])
    /\ Ephemeris.wf N table
    /\ Ephemeris.stamp table = now
    /\ Ephemeris.gps_time table = timestamp
    /\ Ephemeris.row_at table (Ephemeris_index (GpsEphemeris.prn ephem))
       = Ephemeris.row_of ephem
    /\ forall j, j <> Ephemeris_index (GpsEphemeris.prn ephem) ->
         Ephemeris.row_at table j = Ephemeris.row_at (cur_ephem_ self) j.
Proof.
  intros Hwf Hn. wf_lengths Hwf.
  unfold EphemerisHandler.
  set (n := Ephemeris_index (GpsEphemeris.prn ephem)) in *.
  repeat (rewrite store_lt by lia; cbn [mbind option_bind]).
  eexists. split; [reflexivity |].
  split.
  { unfold Ephemeris.wf. cbn. rewrite !length_insert. tauto. }
  split; [reflexivity |]. split; [reflexivity |].
  split.
  - unfold Ephemeris.row_at, Ephemeris.row_of. cbn.
    rewrite !list_lookup_insert_eq by lia. reflexivity.
  - intros j Hj. unfold Ephemeris.row_at. cbn.
    rewrite !list_lookup_insert_ne by auto. reflexivity.
Qed.

(** When that index is past the end of the table, the first store is
    already outside the array. *)
Lemma EphemerisHandler_out_of_bounds (N : nat) self ephem timestamp now :
  Ephemeris.wf N (cur_ephem_ self) ->
  (N <= Ephemeris_index (GpsEphemeris.prn ephem))%nat ->
  EphemerisHandler self ephem timestamp now = None.
Proof.
  intros Hwf Hn. wf_lengths Hwf.
  unfold EphemerisHandler.
  rewrite (store_ge _ (GpsEphemeris.health ephem)) by lia. reflexivity.
Qed.

Lemma Ephemeris_init_wf (N : nat) : Ephemeris.wf N (Ephemeris.init N).
Proof. unfold Ephemeris.wf. cbn. rewrite !length_replicate. tauto. Qed.

(** C7: in a table of N rows (N at most 256, the range of the 8-bit
    index), an update for a satellite number s between 1 and N writes the
    log's values into row s - 1 and changes no entry of any other row;
    the handler keeps the updated table and publishes it whole, with its
    N rows. *)
Theorem C7_update_mutates_one_row :
  forall (N : nat) (self : NovatelNode) (ephem : GpsEphemeris.t)
         (timestamp : float) (now : Time),
    Ephemeris.wf N (cur_ephem_ self) ->
    (N <= 256)%nat ->
    (1 <= GpsEphemeris.prn ephem <= Z.of_nat N)%Z ->
    exists table,
      EphemerisHandler self ephem timestamp now
      = Some (mkNode (cur_velocity_ self) (cur_ins_cov_ self) table,
              [ephemeris_publisher_ table])
      /\ Ephemeris.wf N table
      /\ Ephemeris.row_at table (Z.to_nat (GpsEphemeris.prn ephem - 1))
         = Ephemeris.row_of ephem
      /\ forall j, j <> Z.to_nat (GpsEphemeris.prn ephem - 1) ->
           Ephemeris.row_at table j = Ephemeris.row_at (cur_ephem_ self) j.
Proof.
  intros N self ephem timestamp now Hwf HN Hprn.
  assert (Hidx : Ephemeris_index (GpsEphemeris.prn ephem)
                 = Z.to_nat (GpsEphemeris.prn ephem - 1))
    by (apply Ephemeris_index_in_range; lia).
  destruct (EphemerisHandler_in_bounds N self ephem timestamp now Hwf)
    as (table & Hrun & Hwf' & _ & _ & Hrow & Hothers).
  { rewrite Hidx. lia. }
  rewrite Hidx in Hrow, Hothers.
  exists table. auto.
Qed.

(** C8 (the code departs from it): the handler has no test of the
    satellite number.  In a table of 32 rows the specified update fails
    with SatelliteIdOutOfRange on the satellite numbers 257, 0 and 33.
    On 257 the handler narrows 256 to the 8-bit index 0, overwrites row 0
    and publishes the table; on 0 the index is 255 and on 33 it is 32, and
    the stores are past the end of the arrays. *)
Theorem C8_out_of_range_ids_reach_the_table :
  let self := Sample.node (Sample.velocity 0 0 0 0) (Sample.ins_cov 0 0) in
  Ephemeris.wf 32 (cur_ephem_ self)
  /\ (Spec.update_row 32 257 = inl Spec.SatelliteIdOutOfRange
      /\ Ephemeris_index 257 = 0%nat
      /\ exists table,
           EphemerisHandler self (Sample.ephemeris 257) 0%float 0%Z
           = Some (mkNode (cur_velocity_ self) (cur_ins_cov_ self) table,
                   [ephemeris_publisher_ table])
           /\ Ephemeris.health (cur_ephem_ self) !! 0%nat = Some 0%Z
           /\ Ephemeris.health table !! 0%nat = Some 1%Z
           /\ Ephemeris.row_at table 0 = Ephemeris.row_of (Sample.ephemeris 257))
  /\ (Spec.update_row 32 0 = inl Spec.SatelliteIdOutOfRange
      /\ Ephemeris_index 0 = 255%nat
      /\ EphemerisHandler self (Sample.ephemeris 0) 0%float 0%Z = None)
  /\ (Spec.update_row 32 33 = inl Spec.SatelliteIdOutOfRange
      /\ Ephemeris_index 33 = 32%nat
      /\ EphemerisHandler self (Sample.ephemeris 33) 0%float 0%Z = None).
Proof.
  split; [apply Ephemeris_init_wf |].
  split; [| split; repeat split].
  split; [reflexivity |]. split; [reflexivity |].
  eexists. split; [reflexivity |]. repeat split.
Qed.

(** ** The range channels *)

Lemma Range_init_wf (cap : nat) : Range_wf cap (Range.init cap).
Proof. unfold Range_wf. cbn. rewrite !length_replicate. tauto. Qed.

(** One turn of the loop writes channel [n] and no other. *)
Lemma RangeHandler_body_in_bounds (cap : nat) range (n : nat) L d :
  Range_wf cap L -> (n < cap)%nat ->
  RangeMeasurements.range_data range !! n = Some d ->
  exists L',
    RangeHandler_body range n L = Some L'
    /\ Range_wf cap L'
    /\ channel_at L' n = channel_of d
    /\ forall j, j <> n -> channel_at L' j = channel_at L j.
Proof.
  intros Hwf Hn Hd. unfold Range_wf in Hwf.
  destruct Hwf as (W1 & W2 & W3 & W4 & W5 & W6 & W7).
  unfold RangeHandler_body. rewrite Hd. cbn [mbind option_bind].
  repeat (rewrite store_lt by lia; cbn [mbind option_bind]).
  eexists. split; [reflexivity |].
  split.
  { unfold Range_wf. cbn. rewrite !length_insert. tauto. }
  split.
  - unfold channel_at, channel_of. cbn.
    rewrite !list_lookup_insert_eq by lia. reflexivity.
  - intros j Hj. unfold channel_at. cbn.
    rewrite !list_lookup_insert_ne by auto. reflexivity.
Qed.

(** The loop from [from], [count] turns long: the channels it passes are
    written from the raw records of the same index, the others are kept. *)
Lemma RangeHandler_loop (cap : nat) range (count : nat) :
  forall (from : nat) (L : Range.t),
    Range_wf cap L ->
    (from + count <= cap)%nat ->
    (from + count <= length (RangeMeasurements.range_data range))%nat ->
    exists L',
      for_loop (RangeHandler_body range) from count L = Some L'
      /\ Range_wf cap L'
      /\ (forall n d, (from <= n < from + count)%nat ->
            RangeMeasurements.range_data range !! n = Some d ->
            channel_at L' n = channel_of d)
      /\ (forall j, ~ (from <= j < from + count)%nat ->
            channel_at L' j = channel_at L j).
Proof.
  induction count as [| count IH]; intros from L Hwf Hcap Hlen.
  - exists L. split; [reflexivity |]. split; [exact Hwf |].
    split; [intros n d Hn; lia | reflexivity].
  - destruct (lookup_lt_is_Some_2 (RangeMeasurements.range_data range) from)
      as [d Hd]; [lia |].
    destruct (RangeHandler_body_in_bounds cap range from L d Hwf ltac:(lia) Hd)
      as (L1 & Hbody & Hwf1 & Hhere & Hother).
    destruct (IH (S from) L1 Hwf1 ltac:(lia) ltac:(lia))
      as (L' & Hloop & Hwf' & Hin & Hout).
    exists L'. cbn [for_loop]. rewrite Hbody. cbn [mbind option_bind].
    split; [exact Hloop |]. split; [exact Hwf' |]. split.
    + intros n d' Hn Hd'.
      destruct (decide (n = from)) as [-> | Hne].
      * rewrite Hout by lia. rewrite Hhere. congruence.
      * apply Hin; [lia | exact Hd'].
    + intros j Hj. rewrite Hout by lia. apply Hother. lia.
Qed.

(** C9: when the range log holds MAX_CHAN raw records and the arrays of
    the message hold at least as many elements, the handler publishes one
    message in which, at every index n below MAX_CHAN, the L1 channel has
    the satellite number, the pseudorange, its standard deviation, the
    doppler and the carrier-to-noise of raw record n as they are, and has
    for carrier phase and for its standard deviation the opposites of the
    accumulated doppler and of its standard deviation of raw record n. *)
Theorem C9_range_channels_positional :
  forall (MAX_CHAN capacity : nat) (self : NovatelNode)
         (range : RangeMeasurements.t) (timestamp : float) (now : Time),
    length (RangeMeasurements.range_data range) = MAX_CHAN ->
    (MAX_CHAN <= capacity)%nat ->
    exists msg,
      RangeHandler MAX_CHAN capacity self range timestamp now
      = Some (self, [dual_band_range_publisher_ msg])
      /\ forall n, (n < MAX_CHAN)%nat ->
         exists d,
           RangeMeasurements.range_data range !! n = Some d
           /\ Range.prn (DualBandRange.L1 msg) !! n
              = Some (RangeData.satellite_prn d)
           /\ Range.psr (DualBandRange.L1 msg) !! n
              = Some (RangeData.pseudorange d)
           /\ Range.psr_std (DualBandRange.L1 msg) !! n
              = Some (RangeData.pseudorange_standard_deviation d)
           /\ Carrier.doppler (Range.carrier (DualBandRange.L1 msg)) !! n
              = Some (RangeData.doppler d)
           /\ Carrier.noise (Range.carrier (DualBandRange.L1 msg)) !! n
              = Some (RangeData.carrier_to_noise d)
           /\ Carrier.phase (Range.carrier (DualBandRange.L1 msg)) !! n
              = Some (- RangeData.accumulated_doppler d)%float
           /\ Carrier.phase_std (Range.carrier (DualBandRange.L1 msg)) !! n
              = Some (- RangeData.accumulated_doppler_std_deviation d)%float.
Proof.
  intros MAX_CHAN capacity self range timestamp now Hlen Hcap.
  destruct (RangeHandler_loop capacity range MAX_CHAN 0 (Range.init capacity)
              (Range_init_wf capacity) ltac:(lia) ltac:(lia))
    as (L1 & Hloop & _ & Hin & _).
  unfold RangeHandler. cbn [DualBandRange.init DualBandRange.L1 DualBandRange.L2].
  rewrite Hloop. cbn [mbind option_bind].
  eexists. split; [reflexivity |].
  intros n Hn. cbn [DualBandRange.L1].
  destruct (lookup_lt_is_Some_2 (RangeMeasurements.range_data range) n)
    as [d Hd]; [lia |].
  exists d. split; [exact Hd |].
  specialize (Hin n d ltac:(lia) Hd).
  pose proof (f_equal ch_prn Hin) as H1.
  pose proof (f_equal ch_psr Hin) as H2.
  pose proof (f_equal ch_psr_std Hin) as H3.
  pose proof (f_equal ch_doppler Hin) as H4.
  pose proof (f_equal ch_noise Hin) as H5.
  pose proof (f_equal ch_phase Hin) as H6.
  pose proof (f_equal ch_phase_std Hin) as H7.
  cbn in H1, H2, H3, H4, H5, H6, H7.
  auto 10.
Qed.

(** ** The theorems with hypotheses, run on the samples *)

(** C6 on a sample: an attitude variance of 1.0 degrees squared comes out
    as (pi/180)^2, a position variance of 4 and a velocity variance of
    0.25 come out as they are. *)
Lemma C6_witness :
  let self :=
    Sample.node (Sample.velocity 0 0 0 0) (Sample.ins_cov 100 5000) in
  let ins_pva := Sample.ins_pva 100 5000 in
  (InsCovarianceShort.gps_week (cur_ins_cov_ self)
     = InsPositionVelocityAttitudeShort.gps_week ins_pva
   /\ InsCovarianceShort.gps_millisecs (cur_ins_cov_ self)
     = InsPositionVelocityAttitudeShort.gps_millisecs ins_pva)
  /\ exists odom,
       published_odom
         (InsPvaHandler Sample.quaternion_from_rpy Sample.projection
            self ins_pva 0%float 0%Z) = Some odom
       /\ Odometry.pose_covariance odom !! 0%nat = Some 4%float
       /\ Odometry.pose_covariance odom !! 21%nat
          = Some degrees_square_to_radians_square
       /\ Odometry.twist_covariance odom !! 0%nat = Some 0.25%float.
Proof.
  intros self ins_pva.
  split; [split; reflexivity |].
  destruct (C6_attitude_block_scaled_once
              Sample.quaternion_from_rpy Sample.projection
              self ins_pva 0%float 0%Z eq_refl eq_refl)
    as (odom & Hpub & Hcov & _).
  exists odom. split; [exact Hpub |].
  destruct (Hcov 0%nat 0%nat ltac:(lia) ltac:(lia)) as (HP & HA & HV).
  split; [exact HP |]. split; [exact HA | exact HV].
Defined.

(** C7 on a sample: satellite 5 in a table of 32 rows. *)
Lemma C7_witness :
  let self := Sample.node (Sample.velocity 0 0 0 0) (Sample.ins_cov 0 0) in
  let ephem := Sample.ephemeris 5 in
  (Ephemeris.wf 32 (cur_ephem_ self)
   /\ (32 <= 256)%nat
   /\ (1 <= GpsEphemeris.prn ephem <= Z.of_nat 32)%Z)
  /\ exists table,
       EphemerisHandler self ephem 0%float 0%Z
       = Some (mkNode (cur_velocity_ self) (cur_ins_cov_ self) table,
               [ephemeris_publisher_ table])
       /\ Ephemeris.row_at table 4 = Ephemeris.row_of ephem
       /\ Ephemeris.row_at table 3 = Ephemeris.row_at (cur_ephem_ self) 3
       /\ Ephemeris.row_at table 5 = Ephemeris.row_at (cur_ephem_ self) 5.
Proof.
  intros self ephem.
  assert (Hwf : Ephemeris.wf 32 (cur_ephem_ self)) by (repeat split).
  assert (HN : (32 <= 256)%nat) by lia.
  assert (Hprn : (1 <= GpsEphemeris.prn ephem <= Z.of_nat 32)%Z)
    by (split; discriminate).
  split; [auto |].
  destruct (C7_update_mutates_one_row 32 self ephem 0%float 0%Z Hwf HN Hprn)
    as (table & Hrun & _ & Hrow & Hothers).
  exists table. split; [exact Hrun |]. split; [exact Hrow |].
  split; apply Hothers; discriminate.
Defined.

(** C9 on a sample: three channels into arrays of four elements. *)
Lemma C9_witness :
  let self := Sample.node (Sample.velocity 0 0 0 0) (Sample.ins_cov 0 0) in
  (length (RangeMeasurements.range_data Sample.range) = 3%nat
   /\ (3 <= 4)%nat)
  /\ exists msg,
       RangeHandler 3 4 self Sample.range 0%float 0%Z
       = Some (self, [dual_band_range_publisher_ msg])
       /\ Range.prn (DualBandRange.L1 msg) !! 1%nat = Some 12%Z
       /\ Carrier.doppler (Range.carrier (DualBandRange.L1 msg)) !! 1%nat
          = Some (-500)%float
       /\ Carrier.phase (Range.carrier (DualBandRange.L1 msg)) !! 1%nat
          = Some (-1234.5)%float
       /\ Carrier.phase_std (Range.carrier (DualBandRange.L1 msg)) !! 1%nat
          = Some (-0.25)%float.
Proof.
  intros self.
  assert (Hcap : (3 <= 4)%nat) by lia.
  split; [split; [reflexivity | exact Hcap] |].
  destruct (C9_range_channels_positional 3 4 self Sample.range 0%float 0%Z
              eq_refl Hcap) as (msg & Hrun & Hch).
  exists msg. split; [exact Hrun |].
  destruct (Hch 1%nat ltac:(lia))
    as (d & Hd & Hprn & _ & _ & Hdop & _ & Hphase & Hstd).
  assert (Hd' : Sample.range_data 12 = d)
    by (apply (f_equal (default d)) in Hd; exact Hd).
  rewrite <- Hd' in Hprn, Hdop, Hphase, Hstd.
  split; [exact Hprn |]. split; [exact Hdop |].
  split; [exact Hphase | exact Hstd].
Defined.

(** C10 on a sample: a velocity of the fix's epoch with position type
    SINGLE and a horizontal speed of 2 m/s. *)
Lemma C10_witness :
  let self :=
    Sample.node (Sample.velocity 100 5000 PositionType.SINGLE 2)
                (Sample.ins_cov 0 0) in
  let pos := Sample.position 100 5000 in
  (Oem4BinaryHeader.gps_week (Velocity.header (cur_velocity_ self))
     = Oem4BinaryHeader.gps_week (UtmPosition.header pos)
   /\ Oem4BinaryHeader.gps_millisecs (Velocity.header (cur_velocity_ self))
     = Oem4BinaryHeader.gps_millisecs (UtmPosition.header pos))
  /\ exists odom,
       published_odom
         (BestUtmHandler Sample.trig Sample.trig Sample.quaternion_from_yaw
            mul_single self pos 0%float 0%Z) = Some odom
       /\ Odometry.pose_covariance odom !! 35%nat
          = Some ((sigma_v / 2) * (sigma_v / 2))%float
       /\ Odometry.twist_covariance odom !! 0%nat
          = Some (sigma_v * sigma_v)%float
       /\ Odometry.twist_covariance odom !! 7%nat
          = Some (sigma_v * sigma_v)%float.
Proof.
  intros self pos.
  split; [split; reflexivity |].
  destruct (C10_fused_uncertainty_gated_on_fix
              Sample.trig Sample.trig Sample.quaternion_from_yaw mul_single
              self pos 0%float 0%Z eq_refl eq_refl)
    as (odom & Hpub & _ & Hfix & _).
  exists odom. split; [exact Hpub |].
  exact (Hfix eq_refl).
Defined.

(** * Further properties of the handlers and of the start-up *)

(** ** The service of a position fix *)

Lemma testbit_0x30 (n : Z) :
  Z.testbit 0x30 n = (n =? 4)%Z || (n =? 5)%Z.
Proof.
  destruct (Z.ltb_spec n 0) as [Hneg | Hpos].
  - rewrite Z.testbit_neg_r by lia.
    destruct (Z.eqb_spec n 4), (Z.eqb_spec n 5); lia || reflexivity.
  - destruct (Z.ltb_spec n 6) as [Hsmall | Hbig].
    + assert (n = 0 \/ n = 1 \/ n = 2 \/ n = 3 \/ n = 4 \/ n = 5)%Z
        as [-> | [-> | [-> | [-> | [-> | ->]]]]] by lia; reflexivity.
    + rewrite Z.bits_above_log2 by (cbn; lia).
      destruct (Z.eqb_spec n 4), (Z.eqb_spec n 5); lia || reflexivity.
Qed.

Lemma land_0x30_zero (mask : Z) :
  Z.land mask 0x30 = 0%Z <->
  Z.testbit mask 4 = false /\ Z.testbit mask 5 = false.
Proof.
  split.
  - intros H.
    pose proof (f_equal (fun v => Z.testbit v 4) H) as H4.
    pose proof (f_equal (fun v => Z.testbit v 5) H) as H5.
    cbn beta in H4, H5.
    rewrite Z.land_spec, testbit_0x30, Z.bits_0 in H4, H5.
    cbn in H4, H5. rewrite andb_true_r in H4, H5. auto.
  - intros [H4 H5]. apply Z.bits_inj'. intros n Hn.
    rewrite Z.land_spec, testbit_0x30, Z.bits_0.
    destruct (Z.eqb_spec n 4) as [-> | ?]; [rewrite H4; reflexivity |].
    destruct (Z.eqb_spec n 5) as [-> | ?]; [rewrite H5; reflexivity |].
    apply andb_false_r.
Qed.

(** X6: the fix published for a position log has service GLONASS when
    bit 4 or bit 5 of the signals-used mask is set, and service GPS
    otherwise, whatever the other bits are. *)
Theorem X6_service_from_mask_bits :
  forall (pos : UtmPosition.t) (now : Time),
    NavSatStatus.service (NavSatFix.status (BestUtm_sat_fix pos now))
    = if Z.testbit (UtmPosition.signals_used_mask pos) 4
         || Z.testbit (UtmPosition.signals_used_mask pos) 5
      then NavSatStatus.SERVICE_GLONASS
      else NavSatStatus.SERVICE_GPS.
Proof.
  intros pos now. cbn [BestUtm_sat_fix NavSatFix.status NavSatStatus.service].
  unfold BestUtm_service.
  set (mask := UtmPosition.signals_used_mask pos).
  pose proof (land_0x30_zero mask) as Hz.
  destruct (Z.eqb_spec (Z.land mask 0x30) 0) as [E | E]; cbn [negb].
  - apply Hz in E as [-> ->]. reflexivity.
  - destruct (Z.testbit mask 4); [reflexivity |].
    destruct (Z.testbit mask 5); [reflexivity |].
    exfalso. apply E, Hz. auto.
Qed.

(** ** More on the ephemeris table *)

(** Two tables with the same header members and the same rows are the
    same table. *)
Lemma Ephemeris_table_ext (t1 t2 : Ephemeris.t) :
  Ephemeris.stamp t1 = Ephemeris.stamp t2 ->
  Ephemeris.gps_time t1 = Ephemeris.gps_time t2 ->
  (forall j, Ephemeris.row_at t1 j = Ephemeris.row_at t2 j) ->
  t1 = t2.
Proof.
  destruct t1, t2. cbn [Ephemeris.stamp Ephemeris.gps_time].
  intros -> -> Hrows.
  pose proof (fun j => f_equal Ephemeris.r_health (Hrows j)) as E1.
  pose proof (fun j => f_equal Ephemeris.r_semimajor_axis (Hrows j)) as E2.
  pose proof (fun j => f_equal Ephemeris.r_mean_anomaly (Hrows j)) as E3.
  pose proof (fun j => f_equal Ephemeris.r_eccentricity (Hrows j)) as E4.
  pose proof (fun j => f_equal Ephemeris.r_perigee_arg (Hrows j)) as E5.
  pose proof (fun j => f_equal Ephemeris.r_cos_latitude (Hrows j)) as E6.
  pose proof (fun j => f_equal Ephemeris.r_sin_latitude (Hrows j)) as E7.
  pose proof (fun j => f_equal Ephemeris.r_cos_orbit_radius (Hrows j)) as E8.
  pose proof (fun j => f_equal Ephemeris.r_sin_orbit_radius (Hrows j)) as E9.
  pose proof (fun j => f_equal Ephemeris.r_cos_inclination (Hrows j)) as E10.
  pose proof (fun j => f_equal Ephemeris.r_sin_inclination (Hrows j)) as E11.
  pose proof (fun j => f_equal Ephemeris.r_inclination_angle (Hrows j)) as E12.
  pose proof (fun j => f_equal Ephemeris.r_right_ascension (Hrows j)) as E13.
  pose proof (fun j => f_equal Ephemeris.r_mean_motion_diff (Hrows j)) as E14.
  pose proof (fun j => f_equal Ephemeris.r_inclination_rate (Hrows j)) as E15.
  pose proof (fun j => f_equal Ephemeris.r_ascension_rate (Hrows j)) as E16.
  pose proof (fun j => f_equal Ephemeris.r_time_of_week (Hrows j)) as E17.
  pose proof (fun j => f_equal Ephemeris.r_reference_time (Hrows j)) as E18.
  pose proof (fun j => f_equal Ephemeris.r_clock_correction (Hrows j)) as E19.
  pose proof (fun j => f_equal Ephemeris.r_group_delay (Hrows j)) as E20.
  pose proof (fun j => f_equal Ephemeris.r_clock_aging_1 (Hrows j)) as E21.
  pose proof (fun j => f_equal Ephemeris.r_clock_aging_2 (Hrows j)) as E22.
  pose proof (fun j => f_equal Ephemeris.r_clock_aging_3 (Hrows j)) as E23.
  clear Hrows.
  cbn [Ephemeris.row_at Ephemeris.r_health Ephemeris.r_semimajor_axis
       Ephemeris.r_mean_anomaly Ephemeris.r_eccentricity
       Ephemeris.r_perigee_arg Ephemeris.r_cos_latitude
       Ephemeris.r_sin_latitude Ephemeris.r_cos_orbit_radius
       Ephemeris.r_sin_orbit_radius Ephemeris.r_cos_inclination
       Ephemeris.r_sin_inclination Ephemeris.r_inclination_angle
       Ephemeris.r_right_ascension Ephemeris.r_mean_motion_diff
       Ephemeris.r_inclination_rate Ephemeris.r_ascension_rate
       Ephemeris.r_time_of_week Ephemeris.r_reference_time
       Ephemeris.r_clock_correction Ephemeris.r_group_delay
       Ephemeris.r_clock_aging_1 Ephemeris.r_clock_aging_2
       Ephemeris.r_clock_aging_3
       Ephemeris.health Ephemeris.semimajor_axis Ephemeris.mean_anomaly
       Ephemeris.eccentricity Ephemeris.perigee_arg Ephemeris.cos_latitude
       Ephemeris.sin_latitude Ephemeris.cos_orbit_radius
       Ephemeris.sin_orbit_radius Ephemeris.cos_inclination
       Ephemeris.sin_inclination Ephemeris.inclination_angle
       Ephemeris.right_ascension Ephemeris.mean_motion_diff
       Ephemeris.inclination_rate Ephemeris.ascension_rate
       Ephemeris.time_of_week Ephemeris.reference_time
       Ephemeris.clock_correction Ephemeris.group_delay
       Ephemeris.clock_aging_1 Ephemeris.clock_aging_2
       Ephemeris.clock_aging_3] in *.
  apply list_eq in E1, E2, E3, E4, E5, E6, E7, E8, E9, E10, E11, E12, E13,
    E14, E15, E16, E17, E18, E19, E20, E21, E22, E23.
  subst. reflexivity.
Qed.

(** X7: on a table of N rows, the ephemeris handler has a result exactly
    when the 8-bit index computed from the satellite number is below N;
    otherwise its first store is past the end of an array. *)
Theorem X7_ephemeris_update_defined_iff :
  forall (N : nat) (self : NovatelNode) (ephem : GpsEphemeris.t)
         (timestamp : float) (now : Time),
    Ephemeris.wf N (cur_ephem_ self) ->
    (is_Some (EphemerisHandler self ephem timestamp now)
     <-> (Ephemeris_index (GpsEphemeris.prn ephem) < N)%nat).
Proof.
  intros N self ephem timestamp now Hwf. split.
  - intros [r Hr].
    destruct (Nat.lt_ge_cases (Ephemeris_index (GpsEphemeris.prn ephem)) N)
      as [Hlt | Hge]; [exact Hlt |].
    rewrite (EphemerisHandler_out_of_bounds N) in Hr by assumption.
    discriminate Hr.
  - intros Hlt.
    destruct (EphemerisHandler_in_bounds N self ephem timestamp now Hwf Hlt)
      as (table & Hrun & _).
    rewrite Hrun. eexists. reflexivity.
Qed.

(** X8: an ephemeris update is idempotent: when a log has been applied,
    applying the same log again with the same times leaves the node as it
    is and publishes the same table. *)
Theorem X8_ephemeris_update_idempotent :
  forall (N : nat) (self : NovatelNode) (ephem : GpsEphemeris.t)
         (timestamp : float) (now : Time),
    Ephemeris.wf N (cur_ephem_ self) ->
    (Ephemeris_index (GpsEphemeris.prn ephem) < N)%nat ->
    exists self1 out,
      EphemerisHandler self ephem timestamp now = Some (self1, out)
      /\ EphemerisHandler self1 ephem timestamp now = Some (self1, out).
Proof.
  intros N self ephem timestamp now Hwf Hidx.
  destruct (EphemerisHandler_in_bounds N self ephem timestamp now Hwf Hidx)
    as (t1 & Hrun1 & Hwf1 & Hs1 & Hg1 & Hrow1 & Hothers1).
  set (self1 := mkNode (cur_velocity_ self) (cur_ins_cov_ self) t1) in *.
  destruct (EphemerisHandler_in_bounds N self1 ephem timestamp now Hwf1 Hidx)
    as (t2 & Hrun2 & _ & Hs2 & Hg2 & Hrow2 & Hothers2).
  assert (t2 = t1) as ->.
  { apply Ephemeris_table_ext; [congruence | congruence |].
    intros j.
    destruct (decide (j = Ephemeris_index (GpsEphemeris.prn ephem)))
      as [-> | Hne].
    - rewrite Hrow2, Hrow1. reflexivity.
    - rewrite Hothers2 by exact Hne. reflexivity. }
  exists self1, [ephemeris_publisher_ t1]. split; assumption.
Qed.

(** X9: of two updates that address the same row, the later one wins:
    the node and the published table are the ones that the later update
    alone gives. *)
Theorem X9_ephemeris_last_update_wins :
  forall (N : nat) (self : NovatelNode) (ephem1 ephem2 : GpsEphemeris.t)
         (timestamp1 timestamp2 : float) (now1 now2 : Time),
    Ephemeris.wf N (cur_ephem_ self) ->
    Ephemeris_index (GpsEphemeris.prn ephem1)
      = Ephemeris_index (GpsEphemeris.prn ephem2) ->
    (Ephemeris_index (GpsEphemeris.prn ephem2) < N)%nat ->
    exists self1 out1 self2 out2,
      EphemerisHandler self ephem1 timestamp1 now1 = Some (self1, out1)
      /\ EphemerisHandler self1 ephem2 timestamp2 now2 = Some (self2, out2)
      /\ EphemerisHandler self ephem2 timestamp2 now2 = Some (self2, out2).
Proof.
  intros N self ephem1 ephem2 timestamp1 timestamp2 now1 now2 Hwf Hsame Hidx.
  destruct (EphemerisHandler_in_bounds N self ephem1 timestamp1 now1 Hwf
              ltac:(lia))
    as (t1 & Hrun1 & Hwf1 & _ & _ & Hrow1 & Hothers1).
  set (self1 := mkNode (cur_velocity_ self) (cur_ins_cov_ self) t1) in *.
  destruct (EphemerisHandler_in_bounds N self1 ephem2 timestamp2 now2 Hwf1 Hidx)
    as (t12 & Hrun12 & _ & Hs12 & Hg12 & Hrow12 & Hothers12).
  destruct (EphemerisHandler_in_bounds N self ephem2 timestamp2 now2 Hwf Hidx)
    as (t2 & Hrun2 & _ & Hs2 & Hg2 & Hrow2 & Hothers2).
  assert (t12 = t2) as ->.
  { apply Ephemeris_table_ext; [congruence | congruence |].
    intros j.
    destruct (decide (j = Ephemeris_index (GpsEphemeris.prn ephem2)))
      as [-> | Hne].
    - rewrite Hrow12, Hrow2. reflexivity.
    - rewrite Hothers12, Hothers2 by exact Hne.
      apply Hothers1. rewrite Hsame. exact Hne. }
  exists self1, [ephemeris_publisher_ t1],
    (mkNode (cur_velocity_ self) (cur_ins_cov_ self) t2),
    [ephemeris_publisher_ t2].
  split; [exact Hrun1 |]. split; [exact Hrun12 | exact Hrun2].
Qed.

(** X10: updates that address different rows commute: applied in either
    order they leave tables with the same rows. *)
Theorem X10_ephemeris_updates_commute :
  forall (N : nat) (self : NovatelNode) (ephem1 ephem2 : GpsEphemeris.t)
         (timestamp1 timestamp2 : float) (now1 now2 : Time),
    Ephemeris.wf N (cur_ephem_ self) ->
    Ephemeris_index (GpsEphemeris.prn ephem1)
      <> Ephemeris_index (GpsEphemeris.prn ephem2) ->
    (Ephemeris_index (GpsEphemeris.prn ephem1) < N)%nat ->
    (Ephemeris_index (GpsEphemeris.prn ephem2) < N)%nat ->
    exists self1 out1 self12 out12 self2 out2 self21 out21,
      EphemerisHandler self ephem1 timestamp1 now1 = Some (self1, out1)
      /\ EphemerisHandler self1 ephem2 timestamp2 now2 = Some (self12, out12)
      /\ EphemerisHandler self ephem2 timestamp2 now2 = Some (self2, out2)
      /\ EphemerisHandler self2 ephem1 timestamp1 now1 = Some (self21, out21)
      /\ forall j,
           Ephemeris.row_at (cur_ephem_ self12) j
           = Ephemeris.row_at (cur_ephem_ self21) j.
Proof.
  intros N self ephem1 ephem2 timestamp1 timestamp2 now1 now2
    Hwf Hne Hidx1 Hidx2.
  destruct (EphemerisHandler_in_bounds N self ephem1 timestamp1 now1 Hwf Hidx1)
    as (t1 & Hrun1 & Hwf1 & _ & _ & Hrow1 & Hothers1).
  set (self1 := mkNode (cur_velocity_ self) (cur_ins_cov_ self) t1) in *.
  destruct (EphemerisHandler_in_bounds N self1 ephem2 timestamp2 now2 Hwf1 Hidx2)
    as (t12 & Hrun12 & _ & _ & _ & Hrow12 & Hothers12).
  destruct (EphemerisHandler_in_bounds N self ephem2 timestamp2 now2 Hwf Hidx2)
    as (t2 & Hrun2 & Hwf2 & _ & _ & Hrow2 & Hothers2).
  set (self2 := mkNode (cur_velocity_ self) (cur_ins_cov_ self) t2) in *.
  destruct (EphemerisHandler_in_bounds N self2 ephem1 timestamp1 now1 Hwf2 Hidx1)
    as (t21 & Hrun21 & _ & _ & _ & Hrow21 & Hothers21).
  cbn [self1 self2 cur_ephem_] in Hothers12, Hothers21.
  exists self1, [ephemeris_publisher_ t1],
    (mkNode (cur_velocity_ self1) (cur_ins_cov_ self1) t12),
    [ephemeris_publisher_ t12],
    self2, [ephemeris_publisher_ t2],
    (mkNode (cur_velocity_ self2) (cur_ins_cov_ self2) t21),
    [ephemeris_publisher_ t21].
  split; [exact Hrun1 |]. split; [exact Hrun12 |].
  split; [exact Hrun2 |]. split; [exact Hrun21 |].
  intros j. cbn [cur_ephem_].
  destruct (decide (j = Ephemeris_index (GpsEphemeris.prn ephem1)))
    as [-> | Hj1].
  - rewrite Hothers12 by exact Hne. rewrite Hrow1, Hrow21. reflexivity.
  - rewrite Hothers21 by exact Hj1.
    destruct (decide (j = Ephemeris_index (GpsEphemeris.prn ephem2)))
      as [-> | Hj2].
    + rewrite Hrow12, Hrow2. reflexivity.
    + rewrite Hothers12, Hothers1, Hothers2 by assumption. reflexivity.
Qed.

Lemma Ephemeris_index_periodic (s k : Z) :
  Ephemeris_index (s + 256 * k) = Ephemeris_index s.
Proof.
  unfold Ephemeris_index. f_equal.
  replace (s + 256 * k - 1)%Z with (s - 1 + k * 256)%Z by lia.
  apply Z.mod_add. lia.
Qed.

(** X11: satellite numbers that differ by a multiple of 256 address the
    same row.  In a table of N rows (N at most 256), an update whose
    satellite number is s + 256 k, with s between 1 and N, writes the
    log's values into row s - 1, leaves the other rows as they are, and
    publishes the table. *)
Theorem X11_satellite_number_wraps_at_256 :
  forall (N : nat) (self : NovatelNode) (ephem : GpsEphemeris.t)
         (timestamp : float) (now : Time) (s k : Z),
    Ephemeris.wf N (cur_ephem_ self) ->
    (N <= 256)%nat ->
    (1 <= s <= Z.of_nat N)%Z ->
    GpsEphemeris.prn ephem = (s + 256 * k)%Z ->
    exists table,
      EphemerisHandler self ephem timestamp now
      = Some (mkNode (cur_velocity_ self) (cur_ins_cov_ self) table,
              [ephemeris_publisher_ table])
      /\ Ephemeris.row_at table (Z.to_nat (s - 1)) = Ephemeris.row_of ephem
      /\ forall j, j <> Z.to_nat (s - 1) ->
           Ephemeris.row_at table j = Ephemeris.row_at (cur_ephem_ self) j.
Proof.
  intros N self ephem timestamp now s k Hwf HN Hs Hprn.
  assert (Hidx : Ephemeris_index (GpsEphemeris.prn ephem) = Z.to_nat (s - 1)).
  { rewrite Hprn, Ephemeris_index_periodic.
    apply Ephemeris_index_in_range. lia. }
  destruct (EphemerisHandler_in_bounds N self ephem timestamp now Hwf)
    as (table & Hrun & _ & _ & _ & Hrow & Hothers).
  { rewrite Hidx. lia. }
  rewrite Hidx in Hrow, Hothers.
  exists table. auto.
Qed.

(** ** More on the range channels *)

(** A channel of a default-constructed band. *)
Lemma channel_at_init (cap n : nat) :
  (n < cap)%nat ->
  channel_at (Range.init cap) n
  = mkChannel (Some 0%Z) (Some 0%float) (Some 0%float) (Some 0%float)
      (Some 0%float) (Some 0%float) (Some 0%float).
Proof.
  intros Hn. unfold channel_at. cbn.
  rewrite !lookup_replicate_2 by exact Hn. reflexivity.
Qed.

(** X12: the range handler fills the L1 band only.  The message it
    publishes carries the clock reading and the reception time, its L2
    band is the one of a default-constructed message, and every L1
    channel from index MAX_CHAN on is all zeros. *)
Theorem X12_range_message_untouched_parts :
  forall (MAX_CHAN capacity : nat) (self : NovatelNode)
         (range : RangeMeasurements.t) (timestamp : float) (now : Time),
    length (RangeMeasurements.range_data range) = MAX_CHAN ->
    (MAX_CHAN <= capacity)%nat ->
    exists msg,
      RangeHandler MAX_CHAN capacity self range timestamp now
      = Some (self, [dual_band_range_publisher_ msg])
      /\ DualBandRange.stamp msg = now
      /\ DualBandRange.gps_time msg = timestamp
      /\ DualBandRange.L2 msg = Range.init capacity
      /\ forall n, (MAX_CHAN <= n < capacity)%nat ->
           channel_at (DualBandRange.L1 msg) n
           = mkChannel (Some 0%Z) (Some 0%float) (Some 0%float)
               (Some 0%float) (Some 0%float) (Some 0%float) (Some 0%float).
Proof.
  intros MAX_CHAN capacity self range timestamp now Hlen Hcap.
  destruct (RangeHandler_loop capacity range MAX_CHAN 0 (Range.init capacity)
              (Range_init_wf capacity) ltac:(lia) ltac:(lia))
    as (L1 & Hloop & _ & _ & Hout).
  unfold RangeHandler.
  cbn [DualBandRange.init DualBandRange.L1 DualBandRange.L2].
  rewrite Hloop. cbn [mbind option_bind].
  eexists. split; [reflexivity |].
  cbn [DualBandRange.stamp DualBandRange.gps_time DualBandRange.L1
       DualBandRange.L2].
  split; [reflexivity |]. split; [reflexivity |]. split; [reflexivity |].
  intros n Hn. rewrite Hout by lia. apply channel_at_init. lia.
Qed.

(** One turn of the loop at an index past the end of the message's
    arrays has no result. *)
Lemma RangeHandler_body_out_of_bounds (cap : nat) range (n : nat) L :
  Range_wf cap L -> (cap <= n)%nat -> RangeHandler_body range n L = None.
Proof.
  intros (W1 & _) Hn. unfold RangeHandler_body.
  destruct (RangeMeasurements.range_data range !! n) as [d |];
    [| reflexivity].
  cbn [mbind option_bind].
  rewrite (store_ge n (RangeData.satellite_prn d)) by lia. reflexivity.
Qed.

Lemma RangeHandler_loop_overflow (cap : nat) range (count : nat) :
  forall (from : nat) (L : Range.t),
    Range_wf cap L ->
    (from <= cap)%nat ->
    (cap < from + count)%nat ->
    (from + count <= length (RangeMeasurements.range_data range))%nat ->
    for_loop (RangeHandler_body range) from count L = None.
Proof.
  induction count as [| count IH]; intros from L Hwf Hfrom Hover Hlen;
    [lia |].
  cbn [for_loop].
  destruct (decide (from = cap)) as [-> | Hne].
  - rewrite (RangeHandler_body_out_of_bounds cap) by (assumption || lia).
    reflexivity.
  - destruct (lookup_lt_is_Some_2 (RangeMeasurements.range_data range) from)
      as [d Hd]; [lia |].
    destruct (RangeHandler_body_in_bounds cap range from L d Hwf ltac:(lia) Hd)
      as (L1 & Hbody & Hwf1 & _).
    rewrite Hbody. cbn [mbind option_bind].
    apply IH; [exact Hwf1 | lia | lia | lia].
Qed.

(** X13: when the arrays of the message hold fewer than MAX_CHAN
    elements, the loop stores past their end: the range handler has no
    result, whatever the log holds. *)
Theorem X13_range_overflows_small_message :
  forall (MAX_CHAN capacity : nat) (self : NovatelNode)
         (range : RangeMeasurements.t) (timestamp : float) (now : Time),
    length (RangeMeasurements.range_data range) = MAX_CHAN ->
    (capacity < MAX_CHAN)%nat ->
    RangeHandler MAX_CHAN capacity self range timestamp now = None.
Proof.
  intros MAX_CHAN capacity self range timestamp now Hlen Hcap.
  unfold RangeHandler.
  cbn [DualBandRange.init DualBandRange.L1 DualBandRange.L2].
  rewrite (RangeHandler_loop_overflow capacity range MAX_CHAN 0)
    by (apply Range_init_wf || lia).
  reflexivity.
Qed.

(** ** The tokens of the serial-port directive *)

Lemma fields_not_nil (sep : ascii) (s : string) : fields sep s <> [].
Proof.
  destruct s as [| c s]; cbn; [discriminate |].
  destruct (Ascii.eqb c sep); [discriminate |].
  destruct (fields sep s); discriminate.
Qed.

Lemma fields_app_sep (sep : ascii) (s1 s2 : string) :
  fields sep (String.append s1 (String sep s2))
  = fields sep s1 ++ fields sep s2.
Proof.
  induction s1 as [| c s1 IH]; cbn.
  - rewrite Ascii.eqb_refl. reflexivity.
  - destruct (Ascii.eqb c sep); [rewrite IH; reflexivity |].
    rewrite IH.
    pose proof (fields_not_nil sep s1) as Hnil.
    destruct (fields sep s1) as [| t ts]; [contradiction | reflexivity].
Qed.

Lemma fields_sep_free (sep : ascii) (t : string) :
  occurs sep t = false -> fields sep t = [t].
Proof.
  induction t as [| c t IH]; cbn; [reflexivity |].
  intros H. apply orb_false_iff in H as [Hc Ht].
  rewrite Hc, (IH Ht). reflexivity.
Qed.

Lemma fields_all_sep_free (sep : ascii) (s : string) :
  Forall (fun t => occurs sep t = false) (fields sep s).
Proof.
  induction s as [| c s IH]; cbn.
  - repeat constructor.
  - destruct (Ascii.eqb c sep) eqn:Hc.
    + constructor; [reflexivity | exact IH].
    + destruct (fields sep s) as [| t ts]; [repeat constructor; cbn;
        rewrite Hc; reflexivity |].
      inversion IH as [| ? ? Ht Hts]; subst.
      constructor; [cbn; rewrite Hc, Ht; reflexivity | exact Hts].
Qed.

Lemma tokenize_app_sep (sep : ascii) (s1 s2 : string) :
  tokenize sep (String.append s1 (String sep s2))
  = tokenize sep s1 ++ tokenize sep s2.
Proof. unfold tokenize. rewrite fields_app_sep. apply List.filter_app. Qed.

Lemma tokenize_token (sep : ascii) (t : string) :
  nonempty t = true -> occurs sep t = false -> tokenize sep t = [t].
Proof.
  intros Hne Hfree. unfold tokenize. rewrite (fields_sep_free sep t Hfree).
  cbn. rewrite Hne. reflexivity.
Qed.

Lemma tokenize_join (sep : ascii) (ts : list string) :
  Forall (fun t => nonempty t = true /\ occurs sep t = false) ts ->
  tokenize sep (join sep ts) = ts.
Proof.
  induction ts as [| t ts IH]; intros Hts; [reflexivity |].
  inversion Hts as [| ? ? [Hne Hfree] Hrest]; subst.
  destruct ts as [| t' ts'].
  - cbn [join]. apply tokenize_token; assumption.
  - change (join sep (t :: t' :: ts'))
      with (String.append t (String sep (join sep (t' :: ts')))).
    rewrite tokenize_app_sep, (tokenize_token sep t Hne Hfree), (IH Hrest).
    reflexivity.
Qed.

(** Every token that the tokenizer yields is non-empty and holds no
    separator. *)
Lemma tokens_nonempty_and_separator_free :
  forall (sep : ascii) (s t : string),
    In t (tokenize sep s) -> nonempty t = true /\ occurs sep t = false.
Proof.
  intros sep s t Hin. unfold tokenize in Hin.
  apply List.filter_In in Hin as [Hin Hne].
  split; [exact Hne |].
  pose proof (fields_all_sep_free sep s) as Hall.
  rewrite List.Forall_forall in Hall. apply Hall. exact Hin.
Qed.

(** Separators that stand first, last or next to another separator
    yield no token: a leading separator, a trailing one and a doubled one
    can be removed without changing the tokens. *)
Lemma extra_separators_ignored :
  forall (sep : ascii) (s1 s2 : string),
    tokenize sep (String sep s1) = tokenize sep s1
    /\ tokenize sep (String.append s1 (String sep EmptyString))
       = tokenize sep s1
    /\ tokenize sep (String.append s1 (String sep (String sep s2)))
       = tokenize sep (String.append s1 (String sep s2)).
Proof.
  intros sep s1 s2. split; [| split].
  - change (String sep s1) with (String.append EmptyString (String sep s1)).
    rewrite tokenize_app_sep. reflexivity.
  - rewrite tokenize_app_sep. cbn. apply app_nil_r.
  - rewrite !tokenize_app_sep. f_equal.
    change (String sep s2) with (String.append EmptyString (String sep s2)).
    rewrite tokenize_app_sep. reflexivity.
Qed.

(** ** [atoi] *)

(** A digit is neither white space nor a sign. *)
Lemma atoi_digit_first (c : ascii) (s : string) (d : Z) :
  digit_of c = Some d ->
  atoi (String c s)
  = let r := digits_value 0 (String c s) in
    if (INT_MIN <=? r)%Z && (r <=? INT_MAX)%Z then Some r else None.
Proof.
  intros Hd. unfold atoi.
  assert (Hsp : isspace c = false /\ c <> "-"%char /\ c <> "+"%char).
  { destruct c as [[] [] [] [] [] [] [] []]; vm_compute in Hd;
      try discriminate Hd; repeat split; discriminate. }
  destruct Hsp as (Hsp & Hminus & Hplus).
  cbn [skip_spaces]. rewrite Hsp.
  destruct c as [[] [] [] [] [] [] [] []];
    try reflexivity; congruence.
Qed.

Lemma digits_value_stops (s : string) :
  forall (acc : Z) (c : ascii) (rest : string),
    all_digits s = true -> digit_of c = None ->
    digits_value acc (String.append s (String c rest)) = digits_value acc s.
Proof.
  induction s as [| d s IH]; intros acc c rest Hs Hc; cbn.
  - rewrite Hc. reflexivity.
  - cbn in Hs. destruct (digit_of d); [| discriminate]. apply IH; assumption.
Qed.

(** [atoi] reads a leading run of digits and ignores what follows
    it: after a non-empty string of digits, a character that is no digit
    and anything behind it do not change the result. *)
Lemma atoi_ignores_text_after_digits :
  forall (s : string) (c : ascii) (rest : string),
    nonempty s = true -> all_digits s = true -> digit_of c = None ->
    atoi (String.append s (String c rest)) = atoi s.
Proof.
  intros s c rest Hne Hs Hc.
  destruct s as [| d s]; [discriminate |].
  pose proof Hs as Hs'. cbn in Hs'.
  destruct (digit_of d) as [v |] eqn:Hd; [| discriminate].
  change (String.append (String d s) (String c rest))
    with (String d (String.append s (String c rest))).
  rewrite (atoi_digit_first d _ v Hd), (atoi_digit_first d s v Hd).
  cbn zeta.
  change (String d (String.append s (String c rest)))
    with (String.append (String d s) (String c rest)).
  rewrite (digits_value_stops (String d s) 0 c rest Hs Hc). reflexivity.
Qed.

(** [atoi] gives 0 when it reads no digit: on the empty string, and
    on a string whose first character is no white space, no sign and no
    digit. *)
Lemma atoi_without_digits_is_zero :
  forall (c : ascii) (s : string),
    isspace c = false -> c <> "-"%char -> c <> "+"%char ->
    digit_of c = None ->
    atoi (String c s) = Some 0%Z /\ atoi EmptyString = Some 0%Z.
Proof.
  intros c s Hsp Hminus Hplus Hd. split; [| reflexivity].
  unfold atoi. cbn [skip_spaces]. rewrite Hsp.
  assert (Hv : digits_value 0 (String c s) = 0%Z) by (cbn; rewrite Hd; reflexivity).
  destruct c as [[] [] [] [] [] [] [] []];
    try congruence; rewrite Hv; reflexivity.
Qed.

(** ** The serial-port directive and the default log requests *)

Lemma nonempty_append (s1 s2 : string) :
  nonempty s1 = true -> nonempty (String.append s1 s2) = true.
Proof. destruct s1; [discriminate | reflexivity]. Qed.

Lemma nonempty_join (sep : ascii) (t : string) (ts : list string) :
  nonempty t = true -> nonempty (join sep (t :: ts)) = true.
Proof.
  intros Hne. destruct ts as [| t' ts]; [exact Hne |].
  change (join sep (t :: t' :: ts))
    with (String.append t (String sep (join sep (t' :: ts)))).
  apply nonempty_append. exact Hne.
Qed.

Lemma tokenize_commas (n : nat) : tokenize ","%char (commas n) = [].
Proof.
  induction n as [| n IH]; [reflexivity |].
  cbn [commas].
  change (String ","%char (commas n))
    with (String.append EmptyString (String ","%char (commas n))).
  rewrite tokenize_app_sep, IH. reflexivity.
Qed.

(** X17: a directive of four words separated by commas, each word
    non-empty and without a comma, is accepted when [atoi] has a result
    on the first two words: the interface mode of the port named by the
    first word is set to the third and fourth words, and then its baud
    rate to the number that [atoi] reads in the second word.  Nothing is
    reported. *)
Theorem X17_four_word_directive_configures_port :
  forall (com_port baud rx_mode tx_mode : string) (n baudrate : Z),
    Forall (fun t => nonempty t = true /\ occurs ","%char t = false)
           [com_port; baud; rx_mode; tx_mode] ->
    atoi com_port = Some n ->
    atoi baud = Some baudrate ->
    run_configure_port (join ","%char [com_port; baud; rx_mode; tx_mode])
    = Some [ConfigureInterfaceMode com_port rx_mode tx_mode;
            ConfigureBaudRate com_port baudrate].
Proof.
  intros com_port baud rx_mode tx_mode n baudrate Hwords Hcom Hbaud.
  unfold run_configure_port.
  rewrite (tokenize_join _ _ Hwords).
  inversion Hwords as [| ? ? [Hne _] _]; subst.
  rewrite (nonempty_join ","%char com_port _ Hne).
  cbn [head mbind option_bind]. rewrite Hcom. cbn [mbind option_bind].
  cbn [length Nat.eqb negb]. rewrite Hbaud. reflexivity.
Qed.

(** X18: a directive whose number of words is not four sends nothing to
    the receiver.  Whenever such a directive has a result, the result is
    no action at all, for the empty directive, or the report of the error
    alone, which quotes the directive as it is written; and the report is
    the result whenever the directive has a first word on which [atoi]
    has a result. *)
Theorem X18_wrong_word_count_only_reports :
  forall (directive : string),
    length (tokenize ","%char directive) <> 4%nat ->
    (forall acts : list Action,
       run_configure_port directive = Some acts ->
       (directive = EmptyString /\ acts = [])
       \/ (directive <> EmptyString
           /\ acts = [ROS_ERROR_STREAM
                        (String.append
                           "Incorrect number of tokens in configure port parameter: "
                           directive)]))
    /\ (forall (t : string) (n : Z),
          head (tokenize ","%char directive) = Some t ->
          atoi t = Some n ->
          run_configure_port directive
          = Some [ROS_ERROR_STREAM
                    (String.append
                       "Incorrect number of tokens in configure port parameter: "
                       directive)]).
Proof.
  intros directive Hcount. unfold run_configure_port.
  destruct directive as [| c s].
  - split.
    + intros acts H. apply (inj Some) in H. subst acts. left. auto.
    + intros t n Hhead. discriminate Hhead.
  - cbn [nonempty].
    destruct (head (tokenize ","%char (String c s))) as [first |];
      cbn [mbind option_bind].
    + destruct (atoi first) as [m |] eqn:Hfirst; cbn [mbind option_bind].
      * destruct (Nat.eqb_spec (length (tokenize ","%char (String c s))) 4)
          as [E | _]; [contradiction |].
        cbn [negb]. split.
        -- intros acts H. apply (inj Some) in H. subst acts.
           right. split; [discriminate | reflexivity].
        -- intros t n _ _. reflexivity.
      * split; [discriminate |].
        intros t n Hhead Hatoi. apply (inj Some) in Hhead. subst t.
        rewrite Hatoi in Hfirst. discriminate Hfirst.
    + split; [discriminate |]. intros t n Hhead. discriminate Hhead.
Qed.

(** X19: a directive that is not empty and consists of commas only has
    no token; the first token is read before the tokens are counted, so
    that the end iterator is dereferenced and there is no result, not
    even the report of an error. *)
Theorem X19_directive_of_commas_is_undefined :
  forall (n : nat), run_configure_port (commas (S n)) = None.
Proof.
  intros n. unfold run_configure_port.
  rewrite tokenize_commas. reflexivity.
Qed.

(** X14: commas before the first word and after the last are ignored: a
    directive of four words, written with a leading and a trailing comma,
    configures the port as the same four words without them do. *)
Theorem X14_directive_tolerates_outer_commas :
  forall (com_port baud rx_mode tx_mode : string) (n baudrate : Z),
    Forall (fun t => nonempty t = true /\ occurs ","%char t = false)
           [com_port; baud; rx_mode; tx_mode] ->
    atoi com_port = Some n ->
    atoi baud = Some baudrate ->
    run_configure_port
      (String ","%char
         (String.append
            (join ","%char [com_port; baud; rx_mode; tx_mode])
            (String ","%char EmptyString)))
    = Some [ConfigureInterfaceMode com_port rx_mode tx_mode;
            ConfigureBaudRate com_port baudrate].
Proof.
  intros com_port baud rx_mode tx_mode n baudrate Hwords Hcom Hbaud.
  unfold run_configure_port. cbn [nonempty].
  destruct (extra_separators_ignored ","%char
              (String.append
                 (join ","%char [com_port; baud; rx_mode; tx_mode])
                 (String ","%char EmptyString)) EmptyString) as (-> & _).
  destruct (extra_separators_ignored ","%char
              (join ","%char [com_port; baud; rx_mode; tx_mode])
              EmptyString) as (_ & -> & _).
  rewrite (tokenize_join _ _ Hwords).
  cbn [head mbind option_bind]. rewrite Hcom. cbn [mbind option_bind].
  cbn [length Nat.eqb negb]. rewrite Hbaud. reflexivity.
Qed.

(** X15: the baud-rate word is read up to its first character that is no
    digit: when the word is a non-empty run of digits followed by other
    text, the baud rate that is set is the number the digits spell. *)
Theorem X15_baud_word_read_up_to_first_non_digit :
  forall (com_port digits rest rx_mode tx_mode : string) (c : ascii)
         (n baudrate : Z),
    Forall (fun t => nonempty t = true /\ occurs ","%char t = false)
           [com_port; String.append digits (String c rest); rx_mode; tx_mode] ->
    nonempty digits = true -> all_digits digits = true ->
    digit_of c = None ->
    atoi com_port = Some n ->
    atoi digits = Some baudrate ->
    run_configure_port
      (join ","%char
         [com_port; String.append digits (String c rest); rx_mode; tx_mode])
    = Some [ConfigureInterfaceMode com_port rx_mode tx_mode;
            ConfigureBaudRate com_port baudrate].
Proof.
  intros com_port digits rest rx_mode tx_mode c n baudrate
    Hwords Hne Hdigits Hc Hcom Hbaud.
  unfold run_configure_port.
  rewrite (tokenize_join _ _ Hwords).
  inversion Hwords as [| ? ? [Hcne _] _]; subst.
  rewrite (nonempty_join ","%char com_port _ Hcne).
  cbn [head mbind option_bind]. rewrite Hcom. cbn [mbind option_bind].
  cbn [length Nat.eqb negb].
  rewrite (atoi_ignores_text_after_digits digits c rest Hne Hdigits Hc), Hbaud.
  reflexivity.
Qed.

(** X16: a baud-rate word without a leading number sets a baud rate of
    0: when its first character is no white space, no sign and no digit,
    the directive is still accepted and ConfigureBaudRate is called with
    0. *)
Theorem X16_baud_word_without_digits_sets_zero :
  forall (com_port rest rx_mode tx_mode : string) (c : ascii) (n : Z),
    Forall (fun t => nonempty t = true /\ occurs ","%char t = false)
           [com_port; String c rest; rx_mode; tx_mode] ->
    isspace c = false -> c <> "-"%char -> c <> "+"%char ->
    digit_of c = None ->
    atoi com_port = Some n ->
    run_configure_port
      (join ","%char [com_port; String c rest; rx_mode; tx_mode])
    = Some [ConfigureInterfaceMode com_port rx_mode tx_mode;
            ConfigureBaudRate com_port 0].
Proof.
  intros com_port rest rx_mode tx_mode c n Hwords Hsp Hminus Hplus Hc Hcom.
  unfold run_configure_port.
  rewrite (tokenize_join _ _ Hwords).
  inversion Hwords as [| ? ? [Hcne _] _]; subst.
  rewrite (nonempty_join ","%char com_port _ Hcne).
  cbn [head mbind option_bind]. rewrite Hcom. cbn [mbind option_bind].
  cbn [length Nat.eqb negb].
  destruct (atoi_without_digits_is_zero c rest Hsp Hminus Hplus Hc) as (-> & _).
  reflexivity.
Qed.

(** X20: the request for the inertial logs is made when
    span_default_logs_period is positive but carries the period of the
    GPS logs: between two parameter sets that differ only in a positive
    span_default_logs_period, the requests sent are the same. *)
Theorem X20_span_period_only_enables :
  forall (fixed2 : float -> string) (p : Parameters) (span1 span2 : float),
    (0 <? span1)%float = true ->
    (0 <? span2)%float = true ->
    let with_span span :=
      mkParameters (odom_topic_ p) (nav_sat_fix_topic_ p)
        (ephemeris_topic_ p) (dual_band_range_topic_ p) (port_ p)
        (baudrate_ p) (log_commands_ p) (configure_port_ p)
        (gps_default_logs_period_ p) span
        (ephem_default_logs_period_ p) (range_default_logs_period_ p) in
    run_default_logs fixed2 (with_span span1)
    = run_default_logs fixed2 (with_span span2)
    /\ In (ConfigureLogs
             (String.append "INSPVAB ONTIME "
                (String.append (fixed2 (gps_default_logs_period_ p))
                   (String.append ";"
                      (String.append "INSCOVB ONTIME "
                         (fixed2 (gps_default_logs_period_ p)))))))
          (run_default_logs fixed2 (with_span span1)).
Proof.
  intros fixed2 p span1 span2 H1 H2 with_span. subst with_span.
  unfold run_default_logs.
  cbn [gps_default_logs_period_ span_default_logs_period_
       ephem_default_logs_period_ range_default_logs_period_].
  rewrite H1, H2. split; [reflexivity |].
  apply in_or_app. right. apply in_or_app. left. left. reflexivity.
Qed.

Lemma run_configure_port_commands (directive : string) (acts : list Action) :
  run_configure_port directive = Some acts ->
  forallb is_receiver_command acts = true.
Proof.
  unfold run_configure_port.
  destruct (nonempty directive);
    [| intros H; apply (inj Some) in H; subst acts; reflexivity].
  destruct (head (tokenize ","%char directive)) as [first |];
    cbn [mbind option_bind]; [| discriminate].
  destruct (atoi first); cbn [mbind option_bind]; [| discriminate].
  destruct (negb (Nat.eqb (length (tokenize ","%char directive)) 4));
    [intros H; apply (inj Some) in H; subst acts; reflexivity |].
  destruct (tokenize ","%char directive) as [| a [| b [| c [| d [| ? ?]]]]];
    try discriminate.
  destruct (atoi b); cbn [mbind option_bind]; [| discriminate].
  intros H. apply (inj Some) in H. subst acts. reflexivity.
Qed.

Lemma run_default_logs_commands (fixed2 : float -> string) (p : Parameters) :
  forallb is_receiver_command (run_default_logs fixed2 p) = true.
Proof.
  unfold run_default_logs.
  destruct (0 <? gps_default_logs_period_ p)%float,
    (0 <? span_default_logs_period_ p)%float,
    (0 <? ephem_default_logs_period_ p)%float,
    (0 <? range_default_logs_period_ p)%float; reflexivity.
Qed.

(** X21: whenever [run] has a result, it advertises the four topics and
    connects to the receiver once, before anything else; what follows up
    to the final [spin] are commands to the receiver and error reports
    only, and the log commands of the parameter are among them. *)
Theorem X21_run_connects_before_configuring :
  forall (fixed2 : float -> string) (srv : ParameterServer)
         (acts : list Action),
    run fixed2 srv = Some acts ->
    let p := (getParameters srv).2 in
    exists cmds,
      acts = [advertise (odom_topic_ p); advertise (nav_sat_fix_topic_ p);
              advertise (ephemeris_topic_ p);
              advertise (dual_band_range_topic_ p);
              Connect (port_ p) (baudrate_ p)]
             ++ cmds ++ [spin]
      /\ forallb is_receiver_command cmds = true
      /\ In (ConfigureLogs (log_commands_ p)) cmds.
Proof.
  intros fixed2 srv acts. unfold run.
  cbn [getParameters negb snd].
  set (p := mkParameters _ _ _ _ _ _ _ _ _ _ _ _).
  destruct (run_configure_port (configure_port_ p)) as [port_actions |] eqn:Hport;
    cbn [mbind option_bind]; [| discriminate].
  intros H. apply (inj Some) in H. subst acts.
  exists (run_default_logs fixed2 p ++ [ConfigureLogs (log_commands_ p)]
          ++ port_actions).
  split; [| split].
  - rewrite <- !app_assoc. reflexivity.
  - rewrite !forallb_app, run_default_logs_commands,
      (run_configure_port_commands _ _ Hport). reflexivity.
  - apply in_or_app. right. left. reflexivity.
Qed.

(** ** Sequences of logs *)

(** What a defined ephemeris update leaves and publishes, whatever the
    size of the table. *)
Lemma EphemerisHandler_result self ephem timestamp now r :
  EphemerisHandler self ephem timestamp now = Some r ->
  cur_velocity_ r.1 = cur_velocity_ self
  /\ cur_ins_cov_ r.1 = cur_ins_cov_ self
  /\ r.2 = [ephemeris_publisher_ (cur_ephem_ r.1)].
Proof.
  unfold EphemerisHandler.
  repeat match goal with
         | |- context [store ?n ?v ?a] =>
             destruct (store n v a); cbn [mbind option_bind];
             [| discriminate]
         end.
  intros H. apply (inj Some) in H. subst r. repeat split.
Qed.

Lemma RangeHandler_result (MAX_CHAN capacity : nat) self range timestamp now r :
  RangeHandler MAX_CHAN capacity self range timestamp now = Some r ->
  r.1 = self /\ length r.2 = 1%nat.
Proof.
  unfold RangeHandler.
  destruct (for_loop _ _ _ _); cbn [mbind option_bind]; [| discriminate].
  intros H. apply (inj Some) in H. subst r. split; reflexivity.
Qed.

Section Log_sequences.

Context (cos sin : float -> float).
Context (createQuaternionMsgFromYaw : float -> Quaternion.t).
Context (createQuaternionMsgFromRollPitchYaw :
           float -> float -> float -> Quaternion.t).
Context (ConvertLLaUTM : float -> float -> float * float * Z * bool).
Context (mul_stddev : float -> float -> float).
Context (MAX_CHAN capacity : nat).

Local Abbreviation node_dispatch :=
  (dispatch cos sin createQuaternionMsgFromYaw
     createQuaternionMsgFromRollPitchYaw ConvertLLaUTM mul_stddev
     MAX_CHAN capacity).
Local Abbreviation node_handle_logs :=
  (handle_logs cos sin createQuaternionMsgFromYaw
     createQuaternionMsgFromRollPitchYaw ConvertLLaUTM mul_stddev
     MAX_CHAN capacity).

(** One log: the caches hold the log's record when it is a velocity or
    a covariance log and are kept otherwise; the number of messages
    published is the one of the log's kind. *)
Lemma dispatch_result self e r :
  node_dispatch self e = Some r ->
  cur_velocity_ r.1 = last_velocity [e] (cur_velocity_ self)
  /\ cur_ins_cov_ r.1 = last_ins_cov [e] (cur_ins_cov_ self)
  /\ length r.2 = publications e.
Proof.
  unfold dispatch, last_velocity, last_ins_cov, publications.
  destruct e as [[pos | vel | ins_pva | cov | | | ephem | range] ts now];
    cbn [ev_log ev_timestamp ev_now foldl].
  1-6: intros H; apply (inj Some) in H; subst r; repeat split.
  - intros H. apply EphemerisHandler_result in H as (Hv & Hc & Hout).
    rewrite Hout. auto.
  - intros H. apply RangeHandler_result in H as (-> & Hout). auto.
Qed.

Lemma dispatch_wf (N : nat) self e r :
  Ephemeris.wf N (cur_ephem_ self) ->
  node_dispatch self e = Some r ->
  Ephemeris.wf N (cur_ephem_ r.1).
Proof.
  intros Hwf. unfold dispatch.
  destruct e as [[pos | vel | ins_pva | cov | | | ephem | range] ts now];
    cbn [ev_log ev_timestamp ev_now].
  1-6: intros H; apply (inj Some) in H; subst r; exact Hwf.
  - intros H.
    destruct (Nat.lt_ge_cases (Ephemeris_index (GpsEphemeris.prn ephem)) N)
      as [Hlt | Hge].
    + destruct (EphemerisHandler_in_bounds N self ephem ts now Hwf Hlt)
        as (table & Hrun & Hwf' & _).
      rewrite Hrun in H. apply (inj Some) in H. subst r. exact Hwf'.
    + rewrite (EphemerisHandler_out_of_bounds N) in H by assumption.
      discriminate H.
  - intros H. apply RangeHandler_result in H as (-> & _). exact Hwf.
Qed.

Lemma handle_logs_cons self e events :
  node_handle_logs self (e :: events)
  = r ← node_dispatch self e;
    r' ← node_handle_logs r.1 events;
    Some (r'.1, r.2 ++ r'.2).
Proof. reflexivity. Qed.

(** X22: the capacity of the ephemeris table is an invariant of the
    node: after any sequence of logs whose handlers all have a result,
    a table of N rows is still a table of N rows. *)
Theorem X22_table_capacity_invariant :
  forall (N : nat) (events : list Event) (self : NovatelNode)
         (r : NovatelNode * list Published),
    Ephemeris.wf N (cur_ephem_ self) ->
    node_handle_logs self events = Some r ->
    Ephemeris.wf N (cur_ephem_ r.1).
Proof.
  intros N events. induction events as [| e events IH]; intros self r Hwf.
  - intros H. apply (inj Some) in H. subst r. exact Hwf.
  - rewrite handle_logs_cons.
    destruct (node_dispatch self e) as [r1 |] eqn:H1;
      cbn [mbind option_bind]; [| discriminate].
    destruct (node_handle_logs r1.1 events) as [r2 |] eqn:H2;
      cbn [mbind option_bind]; [| discriminate].
    intros H. apply (inj Some) in H. subst r. cbn [fst].
    apply (IH r1.1 r2); [| exact H2].
    exact (dispatch_wf N self e r1 Hwf H1).
Qed.

(** X23: last write wins, whatever arrives in between: after any
    sequence of logs the cached velocity is the one of the last velocity
    log of the sequence (the one the node had when there is none), and
    likewise for the cached covariance; so the odometry of a position fix
    that arrives next is the one computed with that velocity. *)
Theorem X23_caches_hold_last_records :
  forall (events : list Event) (self : NovatelNode)
         (r : NovatelNode * list Published),
    node_handle_logs self events = Some r ->
    cur_velocity_ r.1 = last_velocity events (cur_velocity_ self)
    /\ cur_ins_cov_ r.1 = last_ins_cov events (cur_ins_cov_ self)
    /\ forall (pos : UtmPosition.t) (now : Time),
         BestUtm_odom cos sin createQuaternionMsgFromYaw mul_stddev
           r.1 pos now
         = BestUtm_odom cos sin createQuaternionMsgFromYaw mul_stddev
             (mkNode (last_velocity events (cur_velocity_ self))
                     (cur_ins_cov_ self) (cur_ephem_ self))
             pos now.
Proof.
  intros events self r H.
  assert (Hcaches :
            cur_velocity_ r.1 = last_velocity events (cur_velocity_ self)
            /\ cur_ins_cov_ r.1 = last_ins_cov events (cur_ins_cov_ self)).
  { revert self r H.
    induction events as [| e events IH]; intros self r.
    - intros H. apply (inj Some) in H. subst r. split; reflexivity.
    - rewrite handle_logs_cons.
      destruct (node_dispatch self e) as [r1 |] eqn:H1;
        cbn [mbind option_bind]; [| discriminate].
      destruct (node_handle_logs r1.1 events) as [r2 |] eqn:H2;
        cbn [mbind option_bind]; [| discriminate].
      intros H. apply (inj Some) in H. subst r. cbn [fst].
      destruct (dispatch_result self e r1 H1) as (Hv & Hc & _).
      destruct (IH r1.1 r2 H2) as (Hv2 & Hc2).
      rewrite Hv2, Hc2, Hv, Hc. split; reflexivity. }
  destruct Hcaches as (Hv & Hc).
  split; [exact Hv |]. split; [exact Hc |].
  intros pos now. unfold BestUtm_odom. cbn [cur_velocity_].
  rewrite Hv. reflexivity.
Qed.

(** Handling a sequence of logs in two parts is handling the first
    part and then the second from the node that the first part leaves;
    the messages published are those of the first part followed by those
    of the second. *)
Lemma handle_logs_app :
  forall (events1 events2 : list Event) (self : NovatelNode),
    node_handle_logs self (events1 ++ events2)
    = r1 ← node_handle_logs self events1;
      r2 ← node_handle_logs r1.1 events2;
      Some (r2.1, r1.2 ++ r2.2).
Proof.
  intros events1 events2.
  induction events1 as [| e events1 IH]; intros self.
  - cbn [app handle_logs mbind option_bind fst snd].
    destruct (node_handle_logs self events2) as [[self2 out2] |];
      reflexivity.
  - change ((e :: events1) ++ events2) with (e :: (events1 ++ events2)).
    rewrite !handle_logs_cons.
    destruct (node_dispatch self e) as [r0 |]; cbn [mbind option_bind];
      [| reflexivity].
    rewrite IH.
    destruct (node_handle_logs r0.1 events1) as [r1 |];
      cbn [mbind option_bind fst snd]; [| reflexivity].
    destruct (node_handle_logs r1.1 events2) as [r2 |];
      cbn [mbind option_bind fst snd]; [| reflexivity].
    rewrite app_assoc. reflexivity.
Qed.

(** X25: raw-IMU and hardware-status logs have no effect: removing them
    from a sequence of logs changes neither the node that the sequence
    leaves nor the messages published. *)
Theorem X25_unhandled_logs_have_no_effect :
  forall (events : list Event) (self : NovatelNode),
    node_handle_logs self (List.filter (fun e => negb (unhandled e)) events)
    = node_handle_logs self events.
Proof.
  intros events. induction events as [| e events IH]; intros self;
    [reflexivity |].
  cbn [List.filter].
  destruct (unhandled e) eqn:Hu; cbn [negb].
  - rewrite IH, handle_logs_cons.
    assert (Hd : node_dispatch self e = Some (self, [])).
    { unfold dispatch, unhandled in *.
      destruct (ev_log e); try discriminate Hu; reflexivity. }
    rewrite Hd. cbn [mbind option_bind fst snd app].
    destruct (node_handle_logs self events) as [[self' out] |]; reflexivity.
  - rewrite !handle_logs_cons.
    destruct (node_dispatch self e) as [r0 |]; cbn [mbind option_bind];
      [| reflexivity].
    rewrite IH. reflexivity.
Qed.

(** X26: after any sequence of logs whose handlers all have a result,
    the number of messages published is two for every position-fix and
    every inertial-solution log of the sequence and one for every
    ephemeris and every range log; velocity, covariance, raw-IMU and
    hardware-status logs publish nothing. *)
Theorem X26_number_of_published_messages :
  forall (events : list Event) (self : NovatelNode)
         (r : NovatelNode * list Published),
    node_handle_logs self events = Some r ->
    length r.2 = list_sum (map publications events).
Proof.
  intros events. induction events as [| e events IH]; intros self r.
  - intros H. apply (inj Some) in H. subst r. reflexivity.
  - rewrite handle_logs_cons.
    destruct (node_dispatch self e) as [r1 |] eqn:H1;
      cbn [mbind option_bind]; [| discriminate].
    destruct (node_handle_logs r1.1 events) as [r2 |] eqn:H2;
      cbn [mbind option_bind]; [| discriminate].
    intros H. apply (inj Some) in H. subst r. cbn [snd map list_sum].
    destruct (dispatch_result self e r1 H1) as (_ & _ & Hn).
    rewrite length_app, Hn, (IH r1.1 r2 H2). reflexivity.
Qed.

End Log_sequences.

(** ** The further theorems with hypotheses, run on the samples *)

Lemma X3_witness :
  let self :=
    Sample.node (Sample.velocity 100 5000 PositionType.SINGLE 3)
                (Sample.ins_cov 0 0) in
  let pos := Sample.position 100 5001 in
  ~ (Oem4BinaryHeader.gps_week (Velocity.header (cur_velocity_ self))
       = Oem4BinaryHeader.gps_week (UtmPosition.header pos)
     /\ Oem4BinaryHeader.gps_millisecs (Velocity.header (cur_velocity_ self))
        = Oem4BinaryHeader.gps_millisecs (UtmPosition.header pos))
  /\ exists odom,
       published_odom
         (BestUtmHandler Sample.trig Sample.trig Sample.quaternion_from_yaw
            mul_single self pos 0%float 0%Z) = Some odom
       /\ Odometry.twist_linear odom = Vector3.mk 0 0 0
       /\ Odometry.orientation odom = Quaternion.mk 0 0 0 0
       /\ Odometry.twist_covariance odom = replicate 36 0%float.
Proof.
  intros self pos.
  assert (Hdiff :
    ~ (Oem4BinaryHeader.gps_week (Velocity.header (cur_velocity_ self))
         = Oem4BinaryHeader.gps_week (UtmPosition.header pos)
       /\ Oem4BinaryHeader.gps_millisecs (Velocity.header (cur_velocity_ self))
          = Oem4BinaryHeader.gps_millisecs (UtmPosition.header pos)))
    by (intros [_ H]; discriminate H).
  split; [exact Hdiff |].
  destruct (X3_unmatched_fix_has_default_twist
              Sample.trig Sample.trig Sample.quaternion_from_yaw mul_single
              self pos 0%float 0%Z Hdiff)
    as (odom & Hpub & _ & Hlin & Hori & Hcov).
  exists odom. auto.
Defined.

Lemma X4_witness :
  let self :=
    Sample.node (Sample.velocity 0 0 0 0) (Sample.ins_cov 100 5000) in
  let ins_pva := Sample.ins_pva 100 5001 in
  ~ (InsCovarianceShort.gps_week (cur_ins_cov_ self)
       = InsPositionVelocityAttitudeShort.gps_week ins_pva
     /\ InsCovarianceShort.gps_millisecs (cur_ins_cov_ self)
        = InsPositionVelocityAttitudeShort.gps_millisecs ins_pva)
  /\ exists odom,
       published_odom
         (InsPvaHandler Sample.quaternion_from_rpy Sample.projection
            self ins_pva 0%float 0%Z) = Some odom
       /\ Odometry.pose_covariance odom = replicate 36 0%float
       /\ Odometry.twist_covariance odom = replicate 36 0%float.
Proof.
  intros self ins_pva.
  assert (Hdiff :
    ~ (InsCovarianceShort.gps_week (cur_ins_cov_ self)
         = InsPositionVelocityAttitudeShort.gps_week ins_pva
       /\ InsCovarianceShort.gps_millisecs (cur_ins_cov_ self)
          = InsPositionVelocityAttitudeShort.gps_millisecs ins_pva))
    by (intros [_ H]; discriminate H).
  split; [exact Hdiff |].
  destruct (X4_unmatched_solution_has_zero_covariances
              Sample.quaternion_from_rpy Sample.projection
              self ins_pva 0%float 0%Z Hdiff)
    as (odom & Hpub & _ & _ & Hpose & Htwist).
  exists odom. auto.
Defined.

Lemma X5_witness :
  let self :=
    Sample.node (Sample.velocity 0 0 0 0) (Sample.ins_cov 100 5000) in
  let ins_pva := Sample.ins_pva 100 5000 in
  (InsCovarianceShort.gps_week (cur_ins_cov_ self)
     = InsPositionVelocityAttitudeShort.gps_week ins_pva
   /\ InsCovarianceShort.gps_millisecs (cur_ins_cov_ self)
      = InsPositionVelocityAttitudeShort.gps_millisecs ins_pva)
  /\ exists odom,
       published_odom
         (InsPvaHandler Sample.quaternion_from_rpy Sample.projection
            self ins_pva 0%float 0%Z) = Some odom
       /\ Odometry.pose_covariance odom !! 3%nat = Some 0%float
       /\ Odometry.pose_covariance odom !! 18%nat = Some 0%float
       /\ Odometry.twist_covariance odom !! 21%nat = Some 0%float.
Proof.
  intros self ins_pva.
  split; [split; reflexivity |].
  destruct (X5_fused_solution_cross_terms_zero
              Sample.quaternion_from_rpy Sample.projection
              self ins_pva 0%float 0%Z eq_refl eq_refl)
    as (odom & Hpub & _ & _ & Hpose & Htwist).
  exists odom. split; [exact Hpub |].
  destruct (Hpose 0%nat 0%nat ltac:(lia) ltac:(lia)) as (H1 & H2).
  split; [exact H1 |]. split; [exact H2 |].
  exact (Htwist 3%nat 3%nat ltac:(lia) ltac:(lia) ltac:(lia)).
Defined.

Lemma X7_witness :
  let ephem := Sample.ephemeris 5 in
  Ephemeris.wf 32 (cur_ephem_ Log_sample.node)
  /\ (is_Some (EphemerisHandler Log_sample.node ephem 0%float 0%Z)
      <-> (Ephemeris_index (GpsEphemeris.prn ephem) < 32)%nat).
Proof.
  intros ephem.
  assert (Hwf : Ephemeris.wf 32 (cur_ephem_ Log_sample.node))
    by (repeat split).
  split; [exact Hwf |].
  exact (X7_ephemeris_update_defined_iff 32 Log_sample.node ephem
           0%float 0%Z Hwf).
Defined.

Lemma X8_witness :
  let ephem := Sample.ephemeris 5 in
  (Ephemeris.wf 32 (cur_ephem_ Log_sample.node)
   /\ (Ephemeris_index (GpsEphemeris.prn ephem) < 32)%nat)
  /\ exists self1 out,
       EphemerisHandler Log_sample.node ephem 0%float 0%Z = Some (self1, out)
       /\ EphemerisHandler self1 ephem 0%float 0%Z = Some (self1, out).
Proof.
  intros ephem.
  assert (Hwf : Ephemeris.wf 32 (cur_ephem_ Log_sample.node))
    by (repeat split).
  assert (Hidx : (Ephemeris_index (GpsEphemeris.prn ephem) < 32)%nat)
    by (vm_compute; lia).
  split; [auto |].
  exact (X8_ephemeris_update_idempotent 32 Log_sample.node ephem
           0%float 0%Z Hwf Hidx).
Defined.

Lemma X9_witness :
  let ephem1 := Sample.ephemeris 5 in
  let ephem2 := Sample.ephemeris 261 in
  (Ephemeris.wf 32 (cur_ephem_ Log_sample.node)
   /\ Ephemeris_index (GpsEphemeris.prn ephem1)
      = Ephemeris_index (GpsEphemeris.prn ephem2)
   /\ (Ephemeris_index (GpsEphemeris.prn ephem2) < 32)%nat)
  /\ exists self1 out1 self2 out2,
       EphemerisHandler Log_sample.node ephem1 1%float 1%Z
       = Some (self1, out1)
       /\ EphemerisHandler self1 ephem2 2%float 2%Z = Some (self2, out2)
       /\ EphemerisHandler Log_sample.node ephem2 2%float 2%Z
          = Some (self2, out2).
Proof.
  intros ephem1 ephem2.
  assert (Hwf : Ephemeris.wf 32 (cur_ephem_ Log_sample.node))
    by (repeat split).
  assert (Hsame : Ephemeris_index (GpsEphemeris.prn ephem1)
                  = Ephemeris_index (GpsEphemeris.prn ephem2))
    by reflexivity.
  assert (Hidx : (Ephemeris_index (GpsEphemeris.prn ephem2) < 32)%nat)
    by (vm_compute; lia).
  split; [auto |].
  exact (X9_ephemeris_last_update_wins 32 Log_sample.node ephem1 ephem2
           1%float 2%float 1%Z 2%Z Hwf Hsame Hidx).
Defined.

Lemma X10_witness :
  let ephem1 := Sample.ephemeris 5 in
  let ephem2 := Sample.ephemeris 7 in
  (Ephemeris.wf 32 (cur_ephem_ Log_sample.node)
   /\ Ephemeris_index (GpsEphemeris.prn ephem1)
      <> Ephemeris_index (GpsEphemeris.prn ephem2)
   /\ (Ephemeris_index (GpsEphemeris.prn ephem1) < 32)%nat
   /\ (Ephemeris_index (GpsEphemeris.prn ephem2) < 32)%nat)
  /\ exists self12 self21,
       (exists self1 out1 out12,
          EphemerisHandler Log_sample.node ephem1 1%float 1%Z
          = Some (self1, out1)
          /\ EphemerisHandler self1 ephem2 2%float 2%Z
             = Some (self12, out12))
       /\ (exists self2 out2 out21,
             EphemerisHandler Log_sample.node ephem2 2%float 2%Z
             = Some (self2, out2)
             /\ EphemerisHandler self2 ephem1 1%float 1%Z
                = Some (self21, out21))
       /\ forall j,
            Ephemeris.row_at (cur_ephem_ self12) j
            = Ephemeris.row_at (cur_ephem_ self21) j.
Proof.
  intros ephem1 ephem2.
  assert (Hwf : Ephemeris.wf 32 (cur_ephem_ Log_sample.node))
    by (repeat split).
  assert (Hne : Ephemeris_index (GpsEphemeris.prn ephem1)
                <> Ephemeris_index (GpsEphemeris.prn ephem2))
    by discriminate.
  assert (Hidx1 : (Ephemeris_index (GpsEphemeris.prn ephem1) < 32)%nat)
    by (vm_compute; lia).
  assert (Hidx2 : (Ephemeris_index (GpsEphemeris.prn ephem2) < 32)%nat)
    by (vm_compute; lia).
  split; [auto |].
  destruct (X10_ephemeris_updates_commute 32 Log_sample.node ephem1 ephem2
              1%float 2%float 1%Z 2%Z Hwf Hne Hidx1 Hidx2)
    as (self1 & out1 & self12 & out12 & self2 & out2 & self21 & out21
        & H1 & H12 & H2 & H21 & Hrows).
  exists self12, self21.
  split; [exists self1, out1, out12; auto |].
  split; [exists self2, out2, out21; auto | exact Hrows].
Defined.

Lemma X11_witness :
  let ephem := Sample.ephemeris 261 in
  (Ephemeris.wf 32 (cur_ephem_ Log_sample.node)
   /\ (32 <= 256)%nat
   /\ (1 <= 5 <= Z.of_nat 32)%Z
   /\ GpsEphemeris.prn ephem = (5 + 256 * 1)%Z)
  /\ exists table,
       EphemerisHandler Log_sample.node ephem 0%float 0%Z
       = Some (mkNode (cur_velocity_ Log_sample.node)
                      (cur_ins_cov_ Log_sample.node) table,
               [ephemeris_publisher_ table])
       /\ Ephemeris.row_at table 4 = Ephemeris.row_of ephem.
Proof.
  intros ephem.
  assert (Hwf : Ephemeris.wf 32 (cur_ephem_ Log_sample.node))
    by (repeat split).
  assert (HN : (32 <= 256)%nat) by lia.
  assert (Hs : (1 <= 5 <= Z.of_nat 32)%Z) by (split; discriminate).
  assert (Hprn : GpsEphemeris.prn ephem = (5 + 256 * 1)%Z) by reflexivity.
  split; [auto |].
  destruct (X11_satellite_number_wraps_at_256 32 Log_sample.node ephem
              0%float 0%Z 5 1 Hwf HN Hs Hprn)
    as (table & Hrun & Hrow & _).
  exists table. auto.
Defined.

Lemma X12_witness :
  (length (RangeMeasurements.range_data Sample.range) = 3%nat
   /\ (3 <= 4)%nat)
  /\ exists msg,
       RangeHandler 3 4 Log_sample.node Sample.range 7%float 9%Z
       = Some (Log_sample.node, [dual_band_range_publisher_ msg])
       /\ DualBandRange.stamp msg = 9%Z
       /\ DualBandRange.L2 msg = Range.init 4
       /\ Range.prn (DualBandRange.L1 msg) !! 3%nat = Some 0%Z.
Proof.
  assert (Hcap : (3 <= 4)%nat) by lia.
  split; [split; [reflexivity | exact Hcap] |].
  destruct (X12_range_message_untouched_parts 3 4 Log_sample.node
              Sample.range 7%float 9%Z eq_refl Hcap)
    as (msg & Hrun & Hstamp & _ & HL2 & Htail).
  exists msg. split; [exact Hrun |]. split; [exact Hstamp |].
  split; [exact HL2 |].
  exact (f_equal ch_prn (Htail 3%nat ltac:(lia))).
Defined.

Lemma X13_witness :
  (length (RangeMeasurements.range_data Sample.range) = 3%nat
   /\ (2 < 3)%nat)
  /\ RangeHandler 3 2 Log_sample.node Sample.range 7%float 9%Z = None.
Proof.
  assert (Hcap : (2 < 3)%nat) by lia.
  split; [split; [reflexivity | exact Hcap] |].
  exact (X13_range_overflows_small_message 3 2 Log_sample.node
           Sample.range 7%float 9%Z eq_refl Hcap).
Defined.

Lemma X17_witness :
  (Forall (fun t => nonempty t = true /\ occurs ","%char t = false)
          ["COM2"; "9600"; "RTCA"; "NONE"]%string
   /\ atoi "COM2" = Some 0%Z
   /\ atoi "9600" = Some 9600%Z)
  /\ run_configure_port Config_sample.rtk_port
     = Some [ConfigureInterfaceMode "COM2" "RTCA" "NONE";
             ConfigureBaudRate "COM2" 9600].
Proof.
  assert (Hwords :
    Forall (fun t => nonempty t = true /\ occurs ","%char t = false)
           ["COM2"; "9600"; "RTCA"; "NONE"]%string)
    by (repeat constructor).
  split; [split; [exact Hwords | split; reflexivity] |].
  exact (X17_four_word_directive_configures_port "COM2" "9600" "RTCA" "NONE"
           0 9600 Hwords eq_refl eq_refl).
Defined.

Lemma X18_witness :
  length (tokenize ","%char ",COM2,,9600,") <> 4%nat
  /\ run_configure_port ",COM2,,9600,"
     = Some [ROS_ERROR_STREAM
               "Incorrect number of tokens in configure port parameter: ,COM2,,9600,"].
Proof.
  assert (Hcount : length (tokenize ","%char ",COM2,,9600,") <> 4%nat)
    by discriminate.
  split; [exact Hcount |].
  exact (proj2 (X18_wrong_word_count_only_reports ",COM2,,9600," Hcount)
           "COM2"%string 0%Z eq_refl eq_refl).
Defined.

Lemma X20_witness :
  let p := (getParameters (Config_sample.server "")).2 in
  ((0 <? 0.05)%float = true /\ (0 <? 1)%float = true)
  /\ In (ConfigureLogs
           (String.append "INSPVAB ONTIME "
              (String.append (Log_sample.fixed2 (gps_default_logs_period_ p))
                 (String.append ";"
                    (String.append "INSCOVB ONTIME "
                       (Log_sample.fixed2 (gps_default_logs_period_ p)))))))
        (run_default_logs Log_sample.fixed2 p).
Proof.
  intros p.
  split; [split; reflexivity |].
  exact (proj2 (X20_span_period_only_enables Log_sample.fixed2 p 0.05 1
                  eq_refl eq_refl)).
Defined.

Lemma X22_witness :
  Ephemeris.wf 32 (cur_ephem_ Log_sample.node)
  /\ exists r,
       handle_logs Sample.trig Sample.trig Sample.quaternion_from_yaw
         Sample.quaternion_from_rpy Sample.projection mul_single 3 4
         Log_sample.node Log_sample.events = Some r
       /\ Ephemeris.wf 32 (cur_ephem_ r.1).
Proof.
  assert (Hwf : Ephemeris.wf 32 (cur_ephem_ Log_sample.node))
    by (repeat split).
  split; [exact Hwf |].
  destruct (handle_logs Sample.trig Sample.trig Sample.quaternion_from_yaw
              Sample.quaternion_from_rpy Sample.projection mul_single 3 4
              Log_sample.node Log_sample.events) as [r |] eqn:Hrun;
    [| vm_compute in Hrun; discriminate Hrun].
  exists r. split; [reflexivity |].
  exact (X22_table_capacity_invariant
           Sample.trig Sample.trig Sample.quaternion_from_yaw
           Sample.quaternion_from_rpy Sample.projection mul_single 3 4
           32 Log_sample.events Log_sample.node r Hwf Hrun).
Defined.

Lemma X23_witness :
  exists r,
    handle_logs Sample.trig Sample.trig Sample.quaternion_from_yaw
      Sample.quaternion_from_rpy Sample.projection mul_single 3 4
      Log_sample.node Log_sample.events = Some r
    /\ cur_velocity_ r.1 = Sample.velocity 100 5000 PositionType.SINGLE 2
    /\ cur_ins_cov_ r.1 = Sample.ins_cov 100 5000.
Proof.
  destruct (handle_logs Sample.trig Sample.trig Sample.quaternion_from_yaw
              Sample.quaternion_from_rpy Sample.projection mul_single 3 4
              Log_sample.node Log_sample.events) as [r |] eqn:Hrun;
    [| vm_compute in Hrun; discriminate Hrun].
  exists r. split; [reflexivity |].
  destruct (X23_caches_hold_last_records
              Sample.trig Sample.trig Sample.quaternion_from_yaw
              Sample.quaternion_from_rpy Sample.projection mul_single 3 4
              Log_sample.events Log_sample.node r Hrun)
    as (Hv & Hc & _).
  split; [exact Hv | exact Hc].
Defined.

Lemma X26_witness :
  exists r,
    handle_logs Sample.trig Sample.trig Sample.quaternion_from_yaw
      Sample.quaternion_from_rpy Sample.projection mul_single 3 4
      Log_sample.node Log_sample.events = Some r
    /\ length r.2 = 4%nat.
Proof.
  destruct (handle_logs Sample.trig Sample.trig Sample.quaternion_from_yaw
              Sample.quaternion_from_rpy Sample.projection mul_single 3 4
              Log_sample.node Log_sample.events) as [r |] eqn:Hrun;
    [| vm_compute in Hrun; discriminate Hrun].
  exists r. split; [reflexivity |].
  exact (X26_number_of_published_messages
           Sample.trig Sample.trig Sample.quaternion_from_yaw
           Sample.quaternion_from_rpy Sample.projection mul_single 3 4
           Log_sample.events Log_sample.node r Hrun).
Defined.

Lemma X14_witness :
  (Forall (fun t => nonempty t = true /\ occurs ","%char t = false)
          Log_sample.words
   /\ atoi "COM2" = Some 0%Z
   /\ atoi "9600" = Some 9600%Z)
  /\ run_configure_port ",COM2,9600,RTCA,NONE,"
     = Some [ConfigureInterfaceMode "COM2" "RTCA" "NONE";
             ConfigureBaudRate "COM2" 9600].
Proof.
  assert (Hwords :
    Forall (fun t => nonempty t = true /\ occurs ","%char t = false)
           Log_sample.words)
    by (repeat constructor).
  split; [split; [exact Hwords | split; reflexivity] |].
  exact (X14_directive_tolerates_outer_commas "COM2" "9600" "RTCA" "NONE"
           0 9600 Hwords eq_refl eq_refl).
Defined.

Lemma X15_witness :
  (Forall (fun t => nonempty t = true /\ occurs ","%char t = false)
          ["COM2"; "9600bps"; "RTCA"; "NONE"]%string
   /\ nonempty "9600" = true /\ all_digits "9600" = true
   /\ digit_of "b"%char = None
   /\ atoi "COM2" = Some 0%Z
   /\ atoi "9600" = Some 9600%Z)
  /\ run_configure_port "COM2,9600bps,RTCA,NONE"
     = Some [ConfigureInterfaceMode "COM2" "RTCA" "NONE";
             ConfigureBaudRate "COM2" 9600].
Proof.
  assert (Hwords :
    Forall (fun t => nonempty t = true /\ occurs ","%char t = false)
           ["COM2"; "9600bps"; "RTCA"; "NONE"]%string)
    by (repeat constructor).
  split; [split; [exact Hwords | repeat split] |].
  exact (X15_baud_word_read_up_to_first_non_digit
           "COM2" "9600" "ps" "RTCA" "NONE" "b"%char 0 9600
           Hwords eq_refl eq_refl eq_refl eq_refl eq_refl).
Defined.

Lemma X16_witness :
  (Forall (fun t => nonempty t = true /\ occurs ","%char t = false)
          ["COM2"; "fast"; "RTCA"; "NONE"]%string
   /\ isspace "f"%char = false
   /\ "f"%char <> "-"%char /\ "f"%char <> "+"%char
   /\ digit_of "f"%char = None
   /\ atoi "COM2" = Some 0%Z)
  /\ run_configure_port "COM2,fast,RTCA,NONE"
     = Some [ConfigureInterfaceMode "COM2" "RTCA" "NONE";
             ConfigureBaudRate "COM2" 0].
Proof.
  assert (Hwords :
    Forall (fun t => nonempty t = true /\ occurs ","%char t = false)
           ["COM2"; "fast"; "RTCA"; "NONE"]%string)
    by (repeat constructor).
  assert (Hminus : "f"%char <> "-"%char) by discriminate.
  assert (Hplus : "f"%char <> "+"%char) by discriminate.
  split; [split; [exact Hwords | repeat split; assumption] |].
  exact (X16_baud_word_without_digits_sets_zero
           "COM2" "ast" "RTCA" "NONE" "f"%char 0
           Hwords eq_refl Hminus Hplus eq_refl eq_refl).
Defined.

Lemma X21_witness :
  exists acts cmds,
    run Log_sample.fixed2 (Config_sample.server Config_sample.rtk_port)
    = Some acts
    /\ acts = [advertise "/gps_odom"; advertise "/gps_fix";
               advertise "/ephemeris"; advertise "/range";
               Connect "/dev/ttyUSB0" 9600]
              ++ cmds ++ [spin]
    /\ In (ConfigureLogs "BESTUTMB ONTIME 1.0") cmds.
Proof.
  destruct (run Log_sample.fixed2
              (Config_sample.server Config_sample.rtk_port))
    as [acts |] eqn:Hrun; [| vm_compute in Hrun; discriminate Hrun].
  destruct (X21_run_connects_before_configuring Log_sample.fixed2
              (Config_sample.server Config_sample.rtk_port) acts Hrun)
    as (cmds & Hacts & _ & Hin).
  exists acts, cmds. split; [reflexivity |]. split; [exact Hacts | exact Hin].
Defined.
